(** * Integration Visualizer: the client's request layer and its demo responses

    A shallow embedding of the JavaScript client of the integration
    visualizer: the table of pre-computed responses ([demoData.js]), the
    request functions ([utils/api.js]) and the computation hook
    ([hooks/useComputation.js]), with the properties the specification
    states about the responses a caller receives. *)

From Stdlib Require Import String Ascii List Bool ZArith QArith Qabs Lia.
From Stdlib Require Import Reals Qreals Lra Machin.
Import ListNotations.

Local Open Scope string_scope.
Local Open Scope list_scope.

(** ** JavaScript values *)

Module JS.

(** The values that flow through the client.  A number literal of the
    source is kept as the rational it denotes (the double nearest to it is
    not distinguished from it, nor is [-0] from [0]); [VNaN] and [VInf]
    are the non-finite numbers a decoded response may carry.

    [VOpaque src] is a truthy value whose content is not modelled: an array
    sampled at load time with [Math.cos], [Math.sin] or float division, or
    a non-zero multiple of [Math.PI]; [src] quotes the source expression.

    [VBuiltin k] is the native member found under the name [k] on
    [Object.prototype] (a function; for [__proto__] the prototype object
    itself). *)
#[local] Set Warnings "-register-all".

Inductive value : Type :=
| VUndefined
| VNull
| VBool (b : bool)
| VNum (q : Q)
| VNaN
| VInf (negative : bool)
| VStr (s : string)
| VArr (items : list value)
| VObj (props : list (string * value))
| VOpaque (src : string)
| VBuiltin (k : string).

Arguments VNum q%_Q.

(** ToBoolean. *)
Definition truthy (v : value) : bool :=
  match v with
  | VUndefined | VNull | VNaN => false
  | VBool b => b
  | VNum q => negb (Qeq_bool q 0)
  | VStr s => negb (s =? "")
  | VInf _ | VArr _ | VObj _ | VOpaque _ | VBuiltin _ => true
  end.

(** [a || b] *)
Definition js_or (a b : value) : value := if truthy a then a else b.

Definition nullish (v : value) : bool :=
  match v with VUndefined | VNull => true | _ => false end.

(** Own property of an object literal or of a decoded map: when a key is
    repeated the last occurrence wins. *)
Fixpoint own (props : list (string * value)) (k : string) : option value :=
  match props with
  | [] => None
  | (k', v) :: rest =>
      match own rest k with
      | Some v' => Some v'
      | None => if k' =? k then Some v else None
      end
  end.

(** The names every ordinary object inherits from [Object.prototype]. *)
Definition object_prototype_names : list string :=
  [ "constructor"; "__defineGetter__"; "__defineSetter__"; "hasOwnProperty";
    "__lookupGetter__"; "__lookupSetter__"; "isPrototypeOf";
    "propertyIsEnumerable"; "toString"; "valueOf"; "__proto__";
    "toLocaleString" ].

Definition inherited (k : string) : value :=
  if existsb (String.eqb k) object_prototype_names then VBuiltin k
  else VUndefined.

(** [v[k]] on a value that is neither [null] nor [undefined]: own
    properties first, then the prototype chain.  Members that only the
    wrapper prototypes of strings, numbers, arrays and functions add
    ([length], indices, [call], ...) are not modelled; the client reads none
    of them. *)
Definition member (v : value) (k : string) : value :=
  match v with
  | VObj props =>
      match own props k with
      | Some x => x
      | None => inherited k
      end
  | VUndefined | VNull => VUndefined
  | _ => inherited k
  end.

(** [v?.k] *)
Definition opt_member (v : value) (k : string) : value :=
  if nullish v then VUndefined else member v k.

(** Strict equality with a string literal, [v === 's']. *)
Definition is_str (v : value) (s : string) : bool :=
  match v with VStr s' => s' =? s | _ => false end.

(** Thrown values: every throw the client can observe is an [Error]
    object; its constructor name and its [message]. *)
Inductive exn : Type := JsError (name message : string).

Definition message (e : exn) : string :=
  match e with JsError _ m => m end.

(** The outcome of a call, or of an awaited promise. *)
Inductive outcome (A : Type) : Type :=
| Returned (a : A)
| Thrown (e : exn).

Arguments Returned {A} a.
Arguments Thrown {A} e.

Definition bind {A B} (m : outcome A) (f : A -> outcome B) : outcome B :=
  match m with
  | Returned a => f a
  | Thrown e => Thrown e
  end.

(** [v.k]: reading a property of [null] or [undefined] throws a
    [TypeError].  The wording of its message is the engine's; V8's is
    used. *)
Definition get (v : value) (k : string) : outcome value :=
  match v with
  | VUndefined =>
      Thrown (JsError "TypeError"
                ("Cannot read properties of undefined (reading '" ++ k ++ "')"))
  | VNull =>
      Thrown (JsError "TypeError"
                ("Cannot read properties of null (reading '" ++ k ++ "')"))
  | _ => Returned (member v k)
  end.

End JS.

Export JS.

Notation "x <- m ;; f" := (bind m (fun x => f))
  (at level 61, m at next level, right associativity).

(** ** The pre-computed responses ([demoData.js]) *)

Module Demo.

(** 1D: integral of x^2 from 0 to 1. *)
Definition DEMO_1D : value :=
  VObj [
    ("success", VBool true);
    ("integrand", VStr "x**2");
    ("integrand_latex", VStr "x^{2}");
    ("bounds", VObj [("lower", VStr "0"); ("upper", VStr "1")]);
    ("result", VObj [
       ("symbolic", VStr "1/3");
       ("symbolic_latex", VStr "\frac{1}{3}");
       ("numerical", VNum 0.333333);
       ("error", VNum 3.7e-15)]);
    ("visualization", VObj [
       ("curve", VObj [
          ("x", VOpaque "Array.from({ length: 200 }, (_, i) => i / 199)");
          ("y", VOpaque "Array.from({ length: 200 }, (_, i) => (i / 199) ** 2)")]);
       ("rectangles",
          VOpaque "Array.from({ length: 20 }, (_, i) => { const x = i / 20; const mid = x + 0.025; return { x, width: 0.05, height: mid * mid }; })");
       ("bounds", VObj [("a", VNum 0); ("b", VNum 1)])])].

(** 2D: x^2+y^2 over [0,1]x[0,1]. *)
Definition make2DSurface : value :=
  VObj [
    ("x", VOpaque "vals.map(x => vals.map(() => x))");
    ("y", VOpaque "vals.map(() => [...vals])");
    ("z", VOpaque "vals.map(y => vals.map(x => x * x + y * y))")].

Definition DEMO_2D : value :=
  VObj [
    ("success", VBool true);
    ("integrand", VStr "x**2 + y**2");
    ("integrand_latex", VStr "x^{2} + y^{2}");
    ("region", VObj [("type", VStr "rectangle"); ("x_min", VNum 0);
                     ("x_max", VNum 1); ("y_min", VNum 0); ("y_max", VNum 1)]);
    ("result", VObj [
       ("symbolic", VStr "2/3");
       ("symbolic_latex", VStr "\frac{2}{3}");
       ("numerical", VNum 0.666667);
       ("error", VNum 7.4e-15)]);
    ("visualization", VObj [
       ("surface", make2DSurface);
       ("boundary", VObj [
          ("x", VArr [VNum 0; VNum 1; VNum 1; VNum 0; VNum 0]);
          ("y", VArr [VNum 0; VNum 0; VNum 1; VNum 1; VNum 0])]);
       ("region_type", VStr "rectangle")])].

(** 3D: 1 over the unit box. *)
Definition DEMO_3D : value :=
  VObj [
    ("success", VBool true);
    ("integrand", VStr "1");
    ("integrand_latex", VStr "1");
    ("region", VObj [("type", VStr "box"); ("x_min", VNum 0); ("x_max", VNum 1);
                     ("y_min", VNum 0); ("y_max", VNum 1);
                     ("z_min", VNum 0); ("z_max", VNum 1)]);
    ("result", VObj [
       ("symbolic", VStr "1");
       ("symbolic_latex", VStr "1");
       ("numerical", VNum 1.0);
       ("error", VNum 0.001)]);
    ("visualization", VObj [
       ("points", VArr [VArr [VNum 0.5; VNum 0.5; VNum 0.5]]);
       ("values", VArr [VNum 1.0]);
       ("surfaces", VArr [
          VObj [("x", VArr [VArr [VNum 0; VNum 1]; VArr [VNum 0; VNum 1]]);
                ("y", VArr [VArr [VNum 0; VNum 0]; VArr [VNum 1; VNum 1]]);
                ("z", VArr [VArr [VNum 1; VNum 1]; VArr [VNum 1; VNum 1]]);
                ("name", VStr "front")];
          VObj [("x", VArr [VArr [VNum 0; VNum 1]; VArr [VNum 0; VNum 1]]);
                ("y", VArr [VArr [VNum 0; VNum 0]; VArr [VNum 1; VNum 1]]);
                ("z", VArr [VArr [VNum 0; VNum 0]; VArr [VNum 0; VNum 0]]);
                ("name", VStr "back")]]);
       ("region_type", VStr "box")])].

(** Line scalar: arc length of the unit circle. *)
Definition DEMO_LINE_SCALAR : value :=
  VObj [
    ("success", VBool true);
    ("integral_type", VStr "line_scalar");
    ("integrand", VStr "1");
    ("integrand_latex", VStr "1");
    ("curve", VObj [("x", VStr "cos(t)"); ("y", VStr "sin(t)"); ("z", VStr "0")]);
    ("result", VObj [
       ("symbolic", VStr "2*pi");
       ("symbolic_latex", VStr "2 \pi");
       ("numerical", VNum 6.283185);
       ("error", VNum 1e-12);
       ("integrand_latex", VStr "1")]);
    ("visualization", VObj [
       ("curve", VObj [
          ("x", VOpaque "Array.from({ length: 100 }, (_, i) => Math.cos(2 * Math.PI * i / 99))");
          ("y", VOpaque "Array.from({ length: 100 }, (_, i) => Math.sin(2 * Math.PI * i / 99))");
          ("z", VOpaque "Array.from({ length: 100 }, () => 0)")]);
       ("arrows", VArr []);
       ("t_range", VArr [VNum 0; VNum 6.283185])])].

(** Line vector: circulation of (-y,x,0) around the unit circle. *)
Definition DEMO_LINE_VECTOR : value :=
  VObj [
    ("success", VBool true);
    ("integral_type", VStr "line_vector");
    ("vector_field", VObj [("x", VStr "-y"); ("y", VStr "x"); ("z", VStr "0")]);
    ("vector_field_latex", VObj [("x", VStr "- y"); ("y", VStr "x"); ("z", VStr "0")]);
    ("curve", VObj [("x", VStr "cos(t)"); ("y", VStr "sin(t)"); ("z", VStr "0")]);
    ("result", VObj [
       ("symbolic", VStr "2*pi");
       ("symbolic_latex", VStr "2 \pi");
       ("numerical", VNum 6.283185);
       ("error", VNum 1e-12);
       ("integrand_latex", VStr "1")]);
    ("visualization", VObj [
       ("curve", member (member DEMO_LINE_SCALAR "visualization") "curve");
       ("arrows",
          VOpaque "Array.from({ length: 10 }, (_, i) => { const t = 2 * Math.PI * i / 10; const cx = Math.cos(t), sy = Math.sin(t); return { origin: [cx, sy, 0], direction: [-sy, cx, 0] }; })");
       ("t_range", VArr [VNum 0; VNum 6.283185])])].

(** Surface scalar: hemisphere area. *)
Definition makeHemisphere : value :=
  VObj [
    ("x", VOpaque "uVals.map(u => vVals.map(v => Math.sin(u) * Math.cos(v)))");
    ("y", VOpaque "uVals.map(u => vVals.map(v => Math.sin(u) * Math.sin(v)))");
    ("z", VOpaque "uVals.map(u => vVals.map(() => Math.cos(u)))")].

Definition DEMO_SURFACE_SCALAR : value :=
  VObj [
    ("success", VBool true);
    ("integral_type", VStr "surface_scalar");
    ("integrand", VStr "1");
    ("integrand_latex", VStr "1");
    ("surface", VObj [("x", VStr "sin(u)*cos(v)"); ("y", VStr "sin(u)*sin(v)");
                      ("z", VStr "cos(u)")]);
    ("result", VObj [
       ("symbolic", VStr "2*pi");
       ("symbolic_latex", VStr "2 \pi");
       ("numerical", VNum 6.283185);
       ("error", VNum 1e-10);
       ("normal_vector", VArr [VStr "sin(u)**2*cos(v)"; VStr "sin(u)**2*sin(v)";
                               VStr "sin(u)*cos(u)"]);
       ("dS_latex", VStr "\sin{\left(u \right)}")]);
    ("visualization", VObj [
       ("surface", makeHemisphere);
       ("normals", VArr [VObj [("origin", VArr [VNum 0; VNum 0; VNum 1]);
                               ("direction", VArr [VNum 0; VNum 0; VNum 1])]]);
       ("field_arrows", VArr []);
       ("u_range", VArr [VNum 0; VOpaque "Math.PI / 2"]);
       ("v_range", VArr [VNum 0; VOpaque "2 * Math.PI"])])].

(** Flux: radial field through the hemisphere. *)
Definition DEMO_FLUX : value :=
  VObj [
    ("success", VBool true);
    ("integral_type", VStr "flux");
    ("vector_field", VObj [("x", VStr "x"); ("y", VStr "y"); ("z", VStr "z")]);
    ("vector_field_latex", VObj [("x", VStr "x"); ("y", VStr "y"); ("z", VStr "z")]);
    ("surface", VObj [("x", VStr "sin(u)*cos(v)"); ("y", VStr "sin(u)*sin(v)");
                      ("z", VStr "cos(u)")]);
    ("result", VObj [
       ("symbolic", VStr "2*pi");
       ("symbolic_latex", VStr "2 \pi");
       ("numerical", VNum 6.283185);
       ("error", VNum 1e-10);
       ("normal_vector", VArr [VStr "sin(u)**2*cos(v)"; VStr "sin(u)**2*sin(v)";
                               VStr "sin(u)*cos(u)"]);
       ("integrand_latex", VStr "\sin^{2}(u)")]);
    ("visualization", VObj [
       ("surface", makeHemisphere);
       ("normals", VArr [VObj [("origin", VArr [VNum 0; VNum 0; VNum 1]);
                               ("direction", VArr [VNum 0; VNum 0; VNum 1])]]);
       ("field_arrows", VArr [VObj [("origin", VArr [VNum 1; VNum 0; VNum 0]);
                                    ("direction", VArr [VNum 1; VNum 0; VNum 0])]]);
       ("u_range", VArr [VNum 0; VOpaque "Math.PI / 2"]);
       ("v_range", VArr [VNum 0; VOpaque "2 * Math.PI"])])].

(** Vector operations. *)
Definition DEMO_VECTOR_OPS : value :=
  VObj [
    ("gradient", VObj [
       ("success", VBool true);
       ("operation", VStr "gradient");
       ("input", VStr "x**2 + y**2 + z**2");
       ("input_latex", VStr "x^{2} + y^{2} + z^{2}");
       ("result", VObj [("x", VStr "2*x"); ("y", VStr "2*y"); ("z", VStr "2*z")]);
       ("result_latex", VObj [("x", VStr "2 x"); ("y", VStr "2 y"); ("z", VStr "2 z")])]);
    ("divergence", VObj [
       ("success", VBool true);
       ("operation", VStr "divergence");
       ("input", VObj [("x", VStr "x"); ("y", VStr "y"); ("z", VStr "z")]);
       ("result", VStr "3");
       ("result_latex", VStr "3")]);
    ("curl", VObj [
       ("success", VBool true);
       ("operation", VStr "curl");
       ("input", VObj [("x", VStr "-y"); ("y", VStr "x"); ("z", VStr "0")]);
       ("result", VObj [("x", VStr "0"); ("y", VStr "0"); ("z", VStr "2")]);
       ("result_latex", VObj [("x", VStr "0"); ("y", VStr "0"); ("z", VStr "2")])])].

(** Vector field visualisation: the three nested loops of
    [makeVectorArrows], each from -2 to 2 in steps of 1. *)
Definition makeVectorArrows : value :=
  let steps := [-2; -1; 0; 1; 2]%Z in
  VArr (flat_map (fun xi =>
          flat_map (fun yi =>
            map (fun zi =>
              VObj [("origin", VArr [VNum (inject_Z xi); VNum (inject_Z yi);
                                     VNum (inject_Z zi)]);
                    ("direction", VArr [VNum (inject_Z (- yi));
                                        VNum (inject_Z xi); VNum 0])])
              steps) steps) steps).

Definition DEMO_VECTOR_FIELD : value :=
  VObj [
    ("success", VBool true);
    ("vector_field", VObj [("x", VStr "-y"); ("y", VStr "x"); ("z", VStr "0")]);
    ("visualization", VObj [
       ("arrows", makeVectorArrows);
       ("region", VObj [("x_min", VNum (-2)); ("x_max", VNum 2);
                        ("y_min", VNum (-2)); ("y_max", VNum 2);
                        ("z_min", VNum (-2)); ("z_max", VNum 2)])])].

(** Theorems. *)
Definition DEMO_GREENS : value :=
  VObj [
    ("success", VBool true);
    ("theorem", VStr "Green's Theorem");
    ("P", VStr "-y/2");
    ("Q", VStr "x/2");
    ("line_integral", VObj [("symbolic", VStr "pi"); ("numerical", VNum 3.141593);
                            ("error", VNum 1e-12)]);
    ("curl_z", VStr "1");
    ("curl_z_latex", VStr "1");
    ("description", VStr "oint(P dx + Q dy) = iint(dQ/dx - dP/dy) dA");
    ("visualization", VObj [
       ("curve", member (member DEMO_LINE_SCALAR "visualization") "curve");
       ("arrows", VArr []);
       ("t_range", VArr [VNum 0; VNum 6.283185])])].

Definition DEMO_STOKES : value :=
  VObj [
    ("success", VBool true);
    ("theorem", VStr "Stokes' Theorem");
    ("vector_field", VObj [("x", VStr "-y"); ("y", VStr "x"); ("z", VStr "z**2")]);
    ("curl_F", VObj [("x", VStr "0"); ("y", VStr "0"); ("z", VStr "2")]);
    ("line_integral", VObj [("symbolic", VStr "2*pi"); ("numerical", VNum 6.283185);
                            ("error", VNum 1e-12)]);
    ("surface_integral", VObj [("symbolic", VStr "2*pi");
                               ("numerical", VNum 6.283185);
                               ("error", VNum 1e-10)]);
    ("verification", VObj [("line", VNum 6.283185); ("surface", VNum 6.283185);
                           ("difference", VNum 1e-10)]);
    ("description", VStr "oint F.dr = iint(nabla x F).dS");
    ("visualization", VObj [
       ("curve", member DEMO_LINE_SCALAR "visualization");
       ("surface", member DEMO_SURFACE_SCALAR "visualization")])].

Definition DEMO_DIVERGENCE : value :=
  VObj [
    ("success", VBool true);
    ("theorem", VStr "Divergence Theorem");
    ("vector_field", VObj [("x", VStr "x"); ("y", VStr "y"); ("z", VStr "z")]);
    ("divergence", VStr "3");
    ("divergence_latex", VStr "3");
    ("flux_integral", VObj [("symbolic", VStr "4*pi"); ("numerical", VNum 12.566371);
                            ("error", VNum 0.01)]);
    ("volume_integral", VObj [("symbolic", VStr "4*pi");
                              ("numerical", VNum 12.566371);
                              ("error", VNum 0.05)]);
    ("verification", VObj [("surface", VNum 12.566371); ("volume", VNum 12.566371);
                           ("difference", VNum 0.001)]);
    ("description", VStr "iint F.n dS = iiint(nabla.F) dV");
    ("visualization", member DEMO_SURFACE_SCALAR "visualization")].

(** Physics. *)
Definition DEMO_FIELD_LINES : value :=
  VObj [
    ("success", VBool true);
    ("field_lines",
       VOpaque "Array.from({ length: 8 }, (_, i) => { const angle = (2 * Math.PI * i) / 8; return Array.from({ length: 30 }, (_, j) => { const r = 0.3 + j * 0.05; const a = angle + j * 0.1; return [r * Math.cos(a), r * Math.sin(a), 0]; }); })");
    ("num_lines", VNum 8);
    ("region", VObj [("x_min", VNum (-2)); ("x_max", VNum 2);
                     ("y_min", VNum (-2)); ("y_max", VNum 2);
                     ("z_min", VNum (-1)); ("z_max", VNum 1)])].

Definition DEMO_EQUIPOTENTIAL : value :=
  VObj [
    ("success", VBool true);
    ("scalar_field", VStr "x**2 + y**2");
    ("contour_data", VObj [
       ("x", VOpaque "Array.from({ length: 50 }, (_, i) => -2 + 4 * i / 49)");
       ("y", VOpaque "Array.from({ length: 50 }, (_, i) => -2 + 4 * i / 49)");
       ("z", VOpaque "Array.from({ length: 50 }, (_, i) => { const y = -2 + 4 * i / 49; return Array.from({ length: 50 }, (_, j) => { const x = -2 + 4 * j / 49; return x * x + y * y; }); })")]);
    ("gradient_arrows", VArr [
       VObj [("origin", VArr [VNum 1; VNum 0; VNum 0]);
             ("direction", VArr [VNum 2; VNum 0; VNum 0])];
       VObj [("origin", VArr [VNum 0; VNum 1; VNum 0]);
             ("direction", VArr [VNum 0; VNum 2; VNum 0])];
       VObj [("origin", VArr [VNum (-1); VNum 0; VNum 0]);
             ("direction", VArr [VNum (-2); VNum 0; VNum 0])];
       VObj [("origin", VArr [VNum 0; VNum (-1); VNum 0]);
             ("direction", VArr [VNum 0; VNum (-2); VNum 0])]]);
    ("z_min", VNum 0);
    ("z_max", VNum 8);
    ("num_levels", VNum 10)].

(** Parse. *)
Definition DEMO_PARSE : value :=
  VObj [
    ("success", VBool true);
    ("parsed", VStr "x**2");
    ("latex", VStr "x^{2}");
    ("simplified", VStr "x**2");
    ("simplified_latex", VStr "x^{2}")].

(** Health. *)
Definition DEMO_HEALTH : value :=
  VObj [
    ("status", VStr "healthy");
    ("message", VStr "Integration Visualizer API (demo mode)");
    ("version", VStr "2.0.0")].

(** LaTeX export. *)
Definition DEMO_LATEX_EXPORT : value :=
  VObj [
    ("success", VBool true);
    ("latex", VStr "\int_{0}^{1} x^{2} \, dx = \frac{1}{3}")].

(** The example catalogue of demo mode ([demoExamples.js]). *)
Definition DEMO_EXAMPLES : value :=
  VObj [
    ("1d", VArr [
      VObj [("name", VStr "Polynomial");
         ("integrand", VStr "x^2");
         ("lower_bound", VStr "0");
         ("upper_bound", VStr "1")];
      VObj [("name", VStr "Trigonometric");
         ("integrand", VStr "sin(x)");
         ("lower_bound", VStr "0");
         ("upper_bound", VStr "pi")];
      VObj [("name", VStr "Gaussian");
         ("integrand", VStr "exp(-x^2)");
         ("lower_bound", VStr "-3");
         ("upper_bound", VStr "3")];
      VObj [("name", VStr "Rational");
         ("integrand", VStr "1/(1+x^2)");
         ("lower_bound", VStr "-10");
         ("upper_bound", VStr "10")]]);
    ("2d", VArr [
      VObj [("name", VStr "Rectangle - Polynomial");
         ("integrand", VStr "x^2 + y^2");
         ("region", VObj [("type", VStr "rectangle"); ("x_min", VNum 0); ("x_max", VNum 1); ("y_min", VNum 0); ("y_max", VNum 1)])];
      VObj [("name", VStr "Disk - Area (pi)");
         ("integrand", VStr "1");
         ("region", VObj [("type", VStr "disk"); ("center", VArr [VNum 0; VNum 0]); ("radius", VNum 1)])]]);
    ("3d", VArr [
      VObj [("name", VStr "Unit Cube Volume");
         ("integrand", VStr "1");
         ("region", VObj [("type", VStr "box"); ("x_min", VNum 0); ("x_max", VNum 1); ("y_min", VNum 0); ("y_max", VNum 1); ("z_min", VNum 0); ("z_max", VNum 1)])];
      VObj [("name", VStr "Sphere Volume (4pi/3)");
         ("integrand", VStr "1");
         ("region", VObj [("type", VStr "sphere"); ("center", VArr [VNum 0; VNum 0; VNum 0]); ("radius", VNum 1)])]]);
    ("line_scalar", VArr [
      VObj [("name", VStr "Circle Arc Length (2pi)");
         ("integrand", VStr "1");
         ("curve", VObj [("x", VStr "cos(t)"); ("y", VStr "sin(t)"); ("z", VStr "0")]);
         ("t_start", VNum 0);
         ("t_end", VStr "2*pi");
         ("description", VStr "Circumference of unit circle")]]);
    ("line_vector", VArr [
      VObj [("name", VStr "Circulation (2pi)");
         ("vector_field", VObj [("x", VStr "-y"); ("y", VStr "x"); ("z", VStr "0")]);
         ("curve", VObj [("x", VStr "cos(t)"); ("y", VStr "sin(t)"); ("z", VStr "0")]);
         ("t_start", VNum 0);
         ("t_end", VStr "2*pi");
         ("description", VStr "Vortex field circulation")]]);
    ("surface_scalar", VArr [
      VObj [("name", VStr "Hemisphere Area (2pi)");
         ("integrand", VStr "1");
         ("surface", VObj [("x", VStr "sin(u)*cos(v)"); ("y", VStr "sin(u)*sin(v)"); ("z", VStr "cos(u)")]);
         ("u_range", VArr [VNum 0; VStr "pi/2"]);
         ("v_range", VArr [VNum 0; VStr "2*pi"]);
         ("description", VStr "Upper hemisphere")]]);
    ("flux", VArr [
      VObj [("name", VStr "Radial Flux (Hemisphere)");
         ("vector_field", VObj [("x", VStr "x"); ("y", VStr "y"); ("z", VStr "z")]);
         ("surface", VObj [("x", VStr "sin(u)*cos(v)"); ("y", VStr "sin(u)*sin(v)"); ("z", VStr "cos(u)")]);
         ("u_range", VArr [VNum 0; VStr "pi/2"]);
         ("v_range", VArr [VNum 0; VStr "2*pi"]);
         ("description", VStr "F = r through hemisphere")]]);
    ("vector_operations", VArr [
      VObj [("name", VStr "Gradient: Distance");
         ("operation", VStr "gradient");
         ("scalar_field", VStr "sqrt(x^2 + y^2 + z^2)");
         ("description", VStr "grad r = r_hat")];
      VObj [("name", VStr "Divergence: Position");
         ("operation", VStr "divergence");
         ("vector_field", VObj [("x", VStr "x"); ("y", VStr "y"); ("z", VStr "z")]);
         ("description", VStr "div r = 3")];
      VObj [("name", VStr "Curl: Rotation");
         ("operation", VStr "curl");
         ("vector_field", VObj [("x", VStr "-y"); ("y", VStr "x"); ("z", VStr "0")]);
         ("description", VStr "curl(-y,x,0) = 2k_hat")]]);
    ("vector_fields", VArr [
      VObj [("name", VStr "Radial Source");
         ("vector_field", VObj [("x", VStr "x"); ("y", VStr "y"); ("z", VStr "z")]);
         ("region", VObj [("x_min", VNum (-2)); ("x_max", VNum 2); ("y_min", VNum (-2)); ("y_max", VNum 2); ("z_min", VNum (-2)); ("z_max", VNum 2)]);
         ("description", VStr "Expanding flow")];
      VObj [("name", VStr "Vortex (z-axis)");
         ("vector_field", VObj [("x", VStr "-y"); ("y", VStr "x"); ("z", VStr "0")]);
         ("region", VObj [("x_min", VNum (-2)); ("x_max", VNum 2); ("y_min", VNum (-2)); ("y_max", VNum 2); ("z_min", VNum (-1)); ("z_max", VNum 1)]);
         ("description", VStr "Rotation about z")]]);
    ("physics", VArr [
      VObj [("name", VStr "Point Charge E-field");
         ("category", VStr "electromagnetism");
         ("type", VStr "vector_field");
         ("vector_field", VObj [("x", VStr "x/(x^2+y^2+z^2)^(3/2)"); ("y", VStr "y/(x^2+y^2+z^2)^(3/2)"); ("z", VStr "z/(x^2+y^2+z^2)^(3/2)")]);
         ("description", VStr "E = kq/r^2 radial field");
         ("physics_note", VStr "Coulombs law")];
      VObj [("name", VStr "Gravitational Field");
         ("category", VStr "mechanics");
         ("type", VStr "vector_field");
         ("vector_field", VObj [("x", VStr "-x/(x^2+y^2+z^2)^(3/2)"); ("y", VStr "-y/(x^2+y^2+z^2)^(3/2)"); ("z", VStr "-z/(x^2+y^2+z^2)^(3/2)")]);
         ("description", VStr "g = -GM/r^2 radial");
         ("physics_note", VStr "Newtons gravitation")]]);
    ("theorems", VArr [
      VObj [("name", VStr "Green's Theorem (Area)");
         ("type", VStr "greens");
         ("vector_field", VObj [("x", VStr "-y/2"); ("y", VStr "x/2")]);
         ("curve", VObj [("x", VStr "cos(t)"); ("y", VStr "sin(t)")]);
         ("t_start", VNum 0);
         ("t_end", VStr "2*pi");
         ("description", VStr "oint(-y dx + x dy)/2 = Area");
         ("expected", VStr "pi")];
      VObj [("name", VStr "Divergence Theorem");
         ("type", VStr "divergence");
         ("vector_field", VObj [("x", VStr "x"); ("y", VStr "y"); ("z", VStr "z")]);
         ("surface", VObj [("x", VStr "sin(u)*cos(v)"); ("y", VStr "sin(u)*sin(v)"); ("z", VStr "cos(u)")]);
         ("u_range", VArr [VNum 0; VStr "pi"]);
         ("v_range", VArr [VNum 0; VStr "2*pi"]);
         ("description", VStr "iint F.n dS = iiint div F dV");
         ("expected", VStr "4pi (since div r = 3)")]])].

End Demo.

Export Demo.

(** ** The client ([demoData.js], [utils/api.js], [hooks/useComputation.js]) *)

Section Client.

(** ECMAScript's ToString on a value that is not a string (number
    formatting, array joining, ...).  The language applies it when such a
    value is used as a property key or as the message of an [Error]. *)
Variable ToString : value -> string.

Definition to_string (v : value) : string :=
  match v with
  | VStr s => s
  | _ => ToString v
  end.

(** [o[k]] with a computed key, on an object. *)
Definition member_at (o k : value) : value := member o (to_string k).

(** Look up a pre-computed response for the given endpoint and body;
    [null] if there is no match. *)
Definition getDemoResponse (method path : string) (body : value) : value :=
  if method =? "GET" then
    if path =? "/api/health" then DEMO_HEALTH
    else if path =? "/api/examples" then DEMO_EXAMPLES
    else VNull
  else if path =? "/api/parse" then DEMO_PARSE
  else if path =? "/api/integrate/1d" then DEMO_1D
  else if path =? "/api/integrate/2d" then DEMO_2D
  else if path =? "/api/integrate/3d" then DEMO_3D
  else if path =? "/api/integrate/line/scalar" then DEMO_LINE_SCALAR
  else if path =? "/api/integrate/line/vector" then DEMO_LINE_VECTOR
  else if path =? "/api/integrate/surface/scalar" then DEMO_SURFACE_SCALAR
  else if path =? "/api/integrate/flux" then DEMO_FLUX
  else if path =? "/api/vector/operations" then
    let op := js_or (opt_member body "operation") (VStr "gradient") in
    js_or (member_at DEMO_VECTOR_OPS op) (member DEMO_VECTOR_OPS "gradient")
  else if path =? "/api/visualize/vector_field" then DEMO_VECTOR_FIELD
  else if path =? "/api/theorem/greens" then DEMO_GREENS
  else if path =? "/api/theorem/stokes" then DEMO_STOKES
  else if path =? "/api/theorem/divergence" then DEMO_DIVERGENCE
  else if path =? "/api/physics/field_lines" then DEMO_FIELD_LINES
  else if path =? "/api/physics/equipotential" then DEMO_EQUIPOTENTIAL
  else if path =? "/api/export/latex" then DEMO_LATEX_EXPORT
  else VNull.

(** Demo mode: decided once, when the module is loaded, from the page's
    location. *)
Variable isDemo : bool.

(** The network round trip of [realApiRequest]: the body is encoded and
    posted to the URL, and the bytes of the answer are decoded.  It yields
    the decoded value, or the error with which [encode], [fetch],
    [arrayBuffer] or [decode] failed. *)
Variable transport : string -> value -> outcome value.

Definition API_BASE : string := "/api".

(** [new Error(v)] for a [v] that is not [undefined]. *)
Definition new_Error (v : value) : exn := JsError "Error" (to_string v).

Definition realApiRequest (endpoint : string) (body : value) : outcome value :=
  data <- transport (API_BASE ++ endpoint) body ;;
  success <- get data "success" ;;
  if negb (truthy success) then
    error <- get data "error" ;;
    Thrown (new_Error (js_or error (VStr "Computation failed")))
  else Returned data.

Definition demoApiRequest (endpoint : string) (body : value) : outcome value :=
  let data := getDemoResponse "POST" ("/api" ++ endpoint) body in
  if negb (truthy data) then
    Thrown (new_Error (VStr "This endpoint is not available in demo mode"))
  else Returned data.

(** The promise of [apiRequest], settled.  In demo mode the 300 ms timer
    that precedes the lookup only delays the settlement. *)
Definition apiRequest (endpoint : string) (body : value) : outcome value :=
  if isDemo then demoApiRequest endpoint body
  else realApiRequest endpoint body.

Definition isDemoMode : bool := isDemo.

(** The GET round trip of [fetchExamples]: the decoded answer, or the
    error with which [fetch], [arrayBuffer] or [decode] failed. *)
Variable fetch_decode : string -> outcome value.

Definition fetchExamples : outcome value :=
  if isDemo then Returned (getDemoResponse "GET" "/api/examples" VUndefined)
  else fetch_decode (API_BASE ++ "/examples").

(** The fixed regions of the vector-field and field-line requests. *)
Definition cube_region (z_min z_max : Q) : value :=
  VObj [("x_min", VNum (-2)); ("x_max", VNum 2);
        ("y_min", VNum (-2)); ("y_max", VNum 2);
        ("z_min", VNum z_min); ("z_max", VNum z_max)].

(** The endpoint and the request body of a computation: the pair stands
    for the object [{ endpoint, body }]. *)
Definition getComputeConfig (integralType state : value)
  : outcome (string * value) :=
  integrand <- get state "integrand" ;;
  bounds1D <- get state "bounds1D" ;;
  region2D <- get state "region2D" ;;
  region3D <- get state "region3D" ;;
  vectorField <- get state "vectorField" ;;
  curve <- get state "curve" ;;
  tRange <- get state "tRange" ;;
  surface <- get state "surface" ;;
  uRange <- get state "uRange" ;;
  vRange <- get state "vRange" ;;
  scalarField <- get state "scalarField" ;;
  vectorOp <- get state "vectorOp" ;;
  theoremType <- get state "theoremType" ;;
  P_field <- get state "P_field" ;;
  Q_field <- get state "Q_field" ;;
  if is_str integralType "1d" then
    lower <- get bounds1D "lower" ;;
    upper <- get bounds1D "upper" ;;
    Returned ("/integrate/1d",
              VObj [("integrand", integrand); ("lower_bound", lower);
                    ("upper_bound", upper)])
  else if is_str integralType "2d" then
    Returned ("/integrate/2d",
              VObj [("integrand", integrand); ("region", region2D)])
  else if is_str integralType "3d" then
    Returned ("/integrate/3d",
              VObj [("integrand", integrand); ("region", region3D)])
  else if is_str integralType "line_scalar" then
    t_start <- get tRange "start" ;;
    t_end <- get tRange "end" ;;
    Returned ("/integrate/line/scalar",
              VObj [("integrand", integrand); ("curve", curve);
                    ("t_start", t_start); ("t_end", t_end)])
  else if is_str integralType "line_vector" then
    t_start <- get tRange "start" ;;
    t_end <- get tRange "end" ;;
    Returned ("/integrate/line/vector",
              VObj [("vector_field", vectorField); ("curve", curve);
                    ("t_start", t_start); ("t_end", t_end)])
  else if is_str integralType "surface_scalar" then
    Returned ("/integrate/surface/scalar",
              VObj [("integrand", integrand); ("surface", surface);
                    ("u_range", uRange); ("v_range", vRange)])
  else if is_str integralType "flux" then
    Returned ("/integrate/flux",
              VObj [("vector_field", vectorField); ("surface", surface);
                    ("u_range", uRange); ("v_range", vRange)])
  else if is_str integralType "vector_operations" then
    Returned ("/vector/operations",
              if is_str vectorOp "gradient"
              then VObj [("operation", vectorOp); ("scalar_field", scalarField)]
              else VObj [("operation", vectorOp); ("vector_field", vectorField)])
  else if is_str integralType "vector_fields" || is_str integralType "physics" then
    Returned ("/visualize/vector_field",
              VObj [("vector_field", vectorField);
                    ("region", cube_region (-2) 2)])
  else if is_str integralType "theorems" then
    if is_str theoremType "greens" then
      cx <- get curve "x" ;;
      cy <- get curve "y" ;;
      t_start <- get tRange "start" ;;
      t_end <- get tRange "end" ;;
      Returned ("/theorem/greens",
                VObj [("P", P_field); ("Q", Q_field);
                      ("curve", VObj [("x", cx); ("y", cy)]);
                      ("t_start", t_start); ("t_end", t_end)])
    else if is_str theoremType "stokes" then
      t_start <- get tRange "start" ;;
      t_end <- get tRange "end" ;;
      Returned ("/theorem/stokes",
                VObj [("vector_field", vectorField); ("surface", surface);
                      ("curve", curve); ("u_range", uRange);
                      ("v_range", vRange);
                      ("t_start", t_start); ("t_end", t_end)])
    else
      Returned ("/theorem/divergence",
                VObj [("vector_field", vectorField); ("surface", surface);
                      ("volume_region", region3D); ("u_range", uRange);
                      ("v_range", vRange)])
  else if is_str integralType "field_lines" then
    Returned ("/physics/field_lines",
              VObj [("vector_field", vectorField);
                    ("region", cube_region (-1) 1);
                    ("num_lines", VNum 25); ("steps", VNum 150)])
  else Thrown (new_Error (VStr "Unknown integral type")).

(** *** The computation hook *)

(** The four state cells of [useComputation]. *)
Record hook_state : Type := {
  result : value;
  visualization : value;
  loading : bool;
  error : value
}.

Definition initial_state : hook_state :=
  {| result := VNull; visualization := VNull; loading := false;
     error := VNull |}.

(** Code that writes the state cells and may throw. *)
Definition action (A : Type) : Type := hook_state -> outcome A * hook_state.

Definition lift {A} (m : outcome A) : action A := fun s => (m, s).

Definition bind_action {A B} (m : action A) (f : A -> action B) : action B :=
  fun s =>
    match m s with
    | (Returned a, s') => f a s'
    | (Thrown e, s') => (Thrown e, s')
    end.

Notation "x <~ m ;; f" := (bind_action m (fun x => f))
  (at level 61, m at next level, right associativity).
Notation "m ;;; f" := (bind_action m (fun _ => f))
  (at level 61, right associativity).

(** Whether a value is a function. The members of [Object.prototype] are,
    all but [__proto__], whose value is the prototype object itself. *)
Definition is_function (v : value) : bool :=
  match v with
  | VBuiltin k => negb (k =? "__proto__")
  | _ => false
  end.

(** What the native function [Object.prototype[k]] returns when it is
    called on one argument and with no receiver, the way React calls an
    updater. ECMAScript defines it; it is a parameter here. *)
Variable call_native : string -> value -> outcome value.

(** The state a [useState] setter gives its cell: the argument itself,
    or, when the argument is a function, what that function returns for
    the previous state ([typeof action === 'function' ? action(state) :
    action]). An updater that throws gives the cell no new state: React
    raises its exception when the component renders, not in the code that
    called the setter. *)
Definition next_state (arg previous : value) : value :=
  match arg with
  | VBuiltin k =>
      if is_function arg then
        match call_native k previous with
        | Returned v => v
        | Thrown _ => previous
        end
      else arg
  | _ => arg
  end.

Definition setResult (v : value) : action unit :=
  fun s => (Returned tt,
            {| result := next_state v (result s);
               visualization := visualization s;
               loading := loading s; error := error s |}).

Definition setVisualization (v : value) : action unit :=
  fun s => (Returned tt,
            {| result := result s;
               visualization := next_state v (visualization s);
               loading := loading s; error := error s |}).

Definition setLoading (b : bool) : action unit :=
  fun s => (Returned tt,
            {| result := result s; visualization := visualization s;
               loading := b; error := error s |}).

Definition setError (v : value) : action unit :=
  fun s => (Returned tt,
            {| result := result s; visualization := visualization s;
               loading := loading s; error := next_state v (error s) |}).

(** [try { body } catch (err) { handler(err) } finally { final }] *)
Definition try_catch_finally (body : action unit) (handler : exn -> action unit)
    (final : action unit) : action unit :=
  fun s =>
    match body s with
    | (Returned _, s1) => final s1
    | (Thrown e, s1) =>
        match handler e s1 with
        | (Returned _, s2) => final s2
        | (Thrown e', s2) =>
            match final s2 with
            | (Returned _, s3) => (Thrown e', s3)
            | (Thrown e'', s3) => (Thrown e'', s3)
            end
        end
    end.

(** One call of [compute], from its start to the settlement of its
    promise, with no other call in between. *)
Definition compute (integralType formState : value) : action unit :=
  setLoading true ;;;
  setError VNull ;;;
  setResult VNull ;;;
  setVisualization VNull ;;;
  try_catch_finally
    (config <~ lift (getComputeConfig integralType formState) ;;
     data <~ lift (apiRequest (fst config) (snd config)) ;;
     r <~ lift (get data "result") ;;
     setResult (js_or r data) ;;;
     v <~ lift (get data "visualization") ;;
     setVisualization (js_or v data))
    (fun err => setError (VStr (message err)))
    (setLoading false).


End Client.

(** ** Reading responses *)

Definition number_of (v : value) : option Q :=
  match v with
  | VNum q => Some q
  | _ => None
  end.

Definition keys (v : value) : list string :=
  match v with
  | VObj props => map fst props
  | _ => []
  end.

(** An instance of ToString, right on [undefined], [null], booleans and
    plain objects, at which statements are evaluated on examples. *)
Definition ToString_basic (v : value) : string :=
  match v with
  | VUndefined => "undefined"
  | VNull => "null"
  | VBool true => "true"
  | VBool false => "false"
  | VObj _ => "[object Object]"
  | _ => ""
  end.

(** The native members called on [null], the previous state that the
    updaters of [compute] get: [Object(null)] is a new empty object,
    [isPrototypeOf(null)] is false, [toString()] names its missing
    receiver, and the others throw for want of a receiver. *)
Definition call_native_on_null (k : string) (previous : value)
  : outcome value :=
  if k =? "constructor" then Returned (VObj [])
  else if k =? "isPrototypeOf" then Returned (VBool false)
  else if k =? "toString" then Returned (VStr "[object Undefined]")
  else Thrown (JsError "TypeError"
                 "Cannot convert undefined or null to object").

(** The lookup of a POST request, the only kind [apiRequest] issues. *)
Definition post (ToString : value -> string) (path : string) (body : value)
  : value :=
  getDemoResponse ToString "POST" path body.

(** The record [{ symbolic, numerical, error }] of an integral, as the
    result display reads it. *)
Record integral_result : Type := {
  symbolic : value;
  numerical : value;
  error_estimate : value
}.

Definition integral_of (v : value) : integral_result :=
  {| symbolic := member v "symbolic";
     numerical := member v "numerical";
     error_estimate := member v "error" |}.





(** The cross-check of a theorem response: the boundary value, the
    interior value and the difference of its [verification] record. *)
Definition verification_report (r : value) : option (Q * Q * Q) :=
  match member r "verification" with
  | VObj [(_, VNum boundary); (_, VNum interior); (k, VNum difference)] =>
      if k =? "difference" then Some (boundary, interior, difference)
      else None
  | _ => None
  end.

Definition theorem_tags : list string := ["greens"; "stokes"; "divergence"].

Definition theorem_path (tag : string) : string := "/api/theorem/" ++ tag.

(** Whether a theorem response reports both values and their absolute
    difference. *)
Definition reports_absolute_difference (r : value) : bool :=
  match verification_report r with
  | Some (b, i, d) => Qeq_bool d (Qabs (b - i))
  | None => false
  end.

(** The body of a flux request, as [getComputeConfig] builds it. *)
Definition flux_request (vector_field surface u_range v_range : value) : value :=
  VObj [("vector_field", vector_field); ("surface", surface);
        ("u_range", u_range); ("v_range", v_range)].

(** The flux a flux request is answered with. *)
Definition flux_of (ToString : value -> string) (body : value) : option Q :=
  number_of (member (member (post ToString "/api/integrate/flux" body) "result")
               "numerical").

(** The radial field through the upper hemisphere, as the form holds it
    once the flux example of the catalogue is selected. *)
Definition radial_field : value :=
  VObj [("x", VStr "x"); ("y", VStr "y"); ("z", VStr "z")].

Definition hemisphere : value :=
  VObj [("x", VStr "sin(u)*cos(v)"); ("y", VStr "sin(u)*sin(v)");
        ("z", VStr "cos(u)")].

Definition hemisphere_u : value := VArr [VStr "0"; VStr "pi/2"].
Definition hemisphere_v : value := VArr [VStr "0"; VStr "2*pi"].

(** *** The parser's allow-list *)

Module ParserSpec.

Definition is_letter (c : ascii) : bool :=
  let n := nat_of_ascii c in
  (((65 <=? n) && (n <=? 90)) || ((97 <=? n) && (n <=? 122)))%nat.

Definition is_digit (c : ascii) : bool :=
  let n := nat_of_ascii c in ((48 <=? n) && (n <=? 57))%nat.

(** Modelled from the spec: the characters of which the tokens of the
    allow-list are made (the parser itself, backend/parsers.py, is not
    among the sources): letters, digits, blanks, and the arithmetic
    operators, parentheses, decimal point and argument separator. *)
Definition allowed_char (c : ascii) : bool :=
  is_letter c || is_digit c
  || existsb (Ascii.eqb c) (list_ascii_of_string " +-*/^().,_").

(** Modelled from the spec: the identifiers of a text, its maximal runs
    of letters (backend/parsers.py is not among the sources). *)
Fixpoint identifiers_from (run : string) (text : string) : list string :=
  match text with
  | EmptyString => if run =? "" then [] else [run]
  | String c rest =>
      if is_letter c then identifiers_from (run ++ String c "") rest
      else (if run =? "" then [] else [run]) ++ identifiers_from "" rest
  end.

Definition identifiers (text : string) : list string :=
  identifiers_from "" text.

(** Modelled from the spec: the names an expression may use besides its
    declared variables, the named functions and constants of section 4.1
    and 6 (backend/parsers.py is not among the sources). *)
Definition named_functions : list string :=
  ["sin"; "cos"; "tan"; "exp"; "log"; "sqrt"; "abs"; "pi"].

(** Modelled from the spec: an expression that the parser must reject,
    because it holds a token outside the allow-list or an identifier that
    is neither declared nor a named function (backend/parsers.py is not
    among the sources). *)
Definition must_be_rejected (allowed_variables : list string) (text : string)
  : bool :=
  existsb (fun c => negb (allowed_char c)) (list_ascii_of_string text)
  || existsb (fun id => negb (existsb (String.eqb id)
                                (allowed_variables ++ named_functions)))
       (identifiers text).

End ParserSpec.

(** The body of the Green's-theorem request of the initial form, as
    [getComputeConfig] builds it. *)
Definition greens_request : value :=
  VObj [("P", VStr "-y/2"); ("Q", VStr "x/2");
        ("curve", VObj [("x", VStr "cos(t)"); ("y", VStr "sin(t)")]);
        ("t_start", VStr "0"); ("t_end", VStr "2*pi")].

(** The body of a parse request.  No caller of the endpoint is among the
    sources; the lookup does not read the body, so the name of the field
    is immaterial. *)
Definition parse_request (text : string) : value :=
  VObj [("expression", VStr text)].

(** Whether a response is a failure such as a ParseError: no response at
    all, or one whose [success] is not truthy. *)
Definition is_failure (r : value) : bool :=
  nullish r || negb (truthy (member r "success")).

(** *** Requests and computations *)

(** The state of the form when the application starts ([App.jsx]). *)
Definition initial_form : value :=
  VObj [
    ("integrand", VStr "x^2");
    ("bounds1D", VObj [("lower", VStr "0"); ("upper", VStr "1")]);
    ("region2D", VObj [("type", VStr "rectangle"); ("x_min", VStr "0");
                       ("x_max", VStr "1"); ("y_min", VStr "0");
                       ("y_max", VStr "1")]);
    ("region3D", VObj [("type", VStr "box"); ("x_min", VStr "0");
                       ("x_max", VStr "1"); ("y_min", VStr "0");
                       ("y_max", VStr "1"); ("z_min", VStr "0");
                       ("z_max", VStr "1")]);
    ("vectorField", VObj [("x", VStr "-y"); ("y", VStr "x"); ("z", VStr "0")]);
    ("curve", VObj [("x", VStr "cos(t)"); ("y", VStr "sin(t)"); ("z", VStr "0")]);
    ("tRange", VObj [("start", VStr "0"); ("end", VStr "2*pi")]);
    ("surface", VObj [("x", VStr "sin(u)*cos(v)"); ("y", VStr "sin(u)*sin(v)");
                      ("z", VStr "cos(u)")]);
    ("uRange", VArr [VStr "0"; VStr "pi/2"]);
    ("vRange", VArr [VStr "0"; VStr "2*pi"]);
    ("scalarField", VStr "x^2 + y^2 + z^2");
    ("vectorOp", VStr "gradient");
    ("theoremType", VStr "greens");
    ("P_field", VStr "-y/2");
    ("Q_field", VStr "x/2")].

(** A server that answers every request with a failed computation. *)
Definition failing_transport (url : string) (body : value) : outcome value :=
  Returned (VObj [("success", VBool false);
                  ("error", VStr "Could not parse integrand")]).

(** The request that one call of [compute] makes: the configuration of
    the integral type, then the call of the endpoint. *)
Definition computation (ToString : value -> string) (isDemo : bool)
    (transport : string -> value -> outcome value)
    (integralType formState : value) : outcome value :=
  config <- getComputeConfig ToString integralType formState ;;
  apiRequest ToString isDemo transport (fst config) (snd config).

(** ** The rest of the client *)


(** The operations [DEMO_VECTOR_OPS] has an entry for. *)
Definition vector_operations : list string := ["gradient"; "divergence"; "curl"].

(** ** The application ([App.jsx]) *)

Module App.

(** The state cells of the form, one per [useState] of [App]. *)
Inductive cell : Type :=
| integralType | integrand | bounds1D | region2D | region3D | vectorField
| curve | tRange | surface | uRange | vRange | scalarField | vectorOp
| theoremType | P_field | Q_field.

Definition cell_eq_dec (a b : cell) : {a = b} + {a <> b}.
Proof. decide equality. Defined.

(** The position of a cell in the list above, and the comparison of two
    cells by it. *)
Definition index (c : cell) : nat :=
  match c with
  | integralType => 0 | integrand => 1 | bounds1D => 2 | region2D => 3
  | region3D => 4 | vectorField => 5 | curve => 6 | tRange => 7
  | surface => 8 | uRange => 9 | vRange => 10 | scalarField => 11
  | vectorOp => 12 | theoremType => 13 | P_field => 14 | Q_field => 15
  end.

Definition cell_eqb (a b : cell) : bool := Nat.eqb (index a) (index b).

(** The form: what each cell holds. *)
Definition state : Type := cell -> value.

(** The setter of a cell. *)
Definition set (c : cell) (v : value) (s : state) : state :=
  fun c' => if cell_eq_dec c c' then v else s c'.

(** The form when the application starts. *)
Definition initial : state :=
  fun c =>
    match c with
    | integralType => VStr "1d"
    | integrand => VStr "x^2"
    | bounds1D => VObj [("lower", VStr "0"); ("upper", VStr "1")]
    | region2D =>
        VObj [("type", VStr "rectangle"); ("x_min", VStr "0");
              ("x_max", VStr "1"); ("y_min", VStr "0"); ("y_max", VStr "1")]
    | region3D =>
        VObj [("type", VStr "box"); ("x_min", VStr "0"); ("x_max", VStr "1");
              ("y_min", VStr "0"); ("y_max", VStr "1"); ("z_min", VStr "0");
              ("z_max", VStr "1")]
    | vectorField => VObj [("x", VStr "-y"); ("y", VStr "x"); ("z", VStr "0")]
    | curve => VObj [("x", VStr "cos(t)"); ("y", VStr "sin(t)"); ("z", VStr "0")]
    | tRange => VObj [("start", VStr "0"); ("end", VStr "2*pi")]
    | surface =>
        VObj [("x", VStr "sin(u)*cos(v)"); ("y", VStr "sin(u)*sin(v)");
              ("z", VStr "cos(u)")]
    | uRange => VArr [VStr "0"; VStr "pi/2"]
    | vRange => VArr [VStr "0"; VStr "2*pi"]
    | scalarField => VStr "x^2 + y^2 + z^2"
    | vectorOp => VStr "gradient"
    | theoremType => VStr "greens"
    | P_field => VStr "-y/2"
    | Q_field => VStr "x/2"
    end.

(** The object [handleCompute] passes to [compute]. *)
Definition form_state (s : state) : value :=
  VObj [("integrand", s integrand); ("bounds1D", s bounds1D);
        ("region2D", s region2D); ("region3D", s region3D);
        ("vectorField", s vectorField); ("curve", s curve);
        ("tRange", s tRange); ("surface", s surface); ("uRange", s uRange);
        ("vRange", s vRange); ("scalarField", s scalarField);
        ("vectorOp", s vectorOp); ("theoremType", s theoremType);
        ("P_field", s P_field); ("Q_field", s Q_field)].

(** [names.includes(v)] for an array of string literals. *)
Definition includes (names : list string) (v : value) : bool :=
  existsb (is_str v) names.

(** Which inputs the form shows. *)
Definition needsIntegrand (s : state) : bool :=
  includes ["1d"; "2d"; "3d"; "line_scalar"; "surface_scalar"] (s integralType).

Definition needsVectorField (s : state) : bool :=
  includes ["line_vector"; "flux"; "vector_fields"; "physics"; "field_lines"]
    (s integralType)
  || (is_str (s integralType) "vector_operations"
      && negb (is_str (s vectorOp) "gradient"))
  || (is_str (s integralType) "theorems"
      && negb (is_str (s theoremType) "greens")).

Definition needsCurve (s : state) : bool :=
  includes ["line_scalar"; "line_vector"] (s integralType)
  || (is_str (s integralType) "theorems"
      && (is_str (s theoremType) "greens" || is_str (s theoremType) "stokes")).

Definition needsSurface (s : state) : bool :=
  includes ["surface_scalar"; "flux"] (s integralType)
  || (is_str (s integralType) "theorems"
      && (is_str (s theoremType) "stokes"
          || is_str (s theoremType) "divergence")).

(** The conditions under which the remaining inputs are rendered. *)
Definition showsScalarField (s : state) : bool :=
  is_str (s integralType) "vector_operations"
  && is_str (s vectorOp) "gradient".

Definition showsGreensFields (s : state) : bool :=
  is_str (s integralType) "theorems" && is_str (s theoremType) "greens".

Definition showsRegion1D (s : state) : bool := is_str (s integralType) "1d".
Definition showsRegion2D (s : state) : bool := is_str (s integralType) "2d".
Definition showsRegion3D (s : state) : bool := is_str (s integralType) "3d".

End App.

(** [handleCompute]: the computation of the form as it stands. *)
Definition handleCompute (ToString : value -> string) (isDemo : bool)
    (transport : string -> value -> outcome value)
    (call_native : string -> value -> outcome value) (s : App.state)
  : action unit :=
  compute ToString isDemo transport call_native (s App.integralType)
    (App.form_state s).

(** Whether a request body has a field. *)
Definition has_field (body : value) (k : string) : bool :=
  existsb (String.eqb k) (keys body).

(** The integral types [getComputeConfig] knows. *)
Definition known_types : list string :=
  [ "1d"; "2d"; "3d"; "line_scalar"; "line_vector"; "surface_scalar"; "flux";
    "vector_operations"; "vector_fields"; "physics"; "theorems";
    "field_lines" ].

(** *** Selecting an example ([handleExampleSelect]) *)

Section Selection.

Variable ToString : value -> string.

(** [String(v)] *)
Definition String_of (v : value) : value := VStr (to_string ToString v).

(** [v.map(String)]: on anything but an array there is no [map] to
    call.  ([what] is the text of the receiver, for the message; an
    example holds no [VOpaque] value.) *)
Definition map_String (what : string) (v : value) : outcome value :=
  match v with
  | VArr items => Returned (VArr (map String_of items))
  | _ => Thrown (JsError "TypeError" (what ++ ".map is not a function"))
  end.

Definition is_undefined (v : value) : bool :=
  match v with VUndefined => true | _ => false end.

(** The integral type that the [type] of a physics example selects. *)
Definition typeMap : value :=
  VObj [("vector_field", VStr "vector_fields"); ("flux", VStr "flux");
        ("line_vector", VStr "line_vector");
        ("line_scalar", VStr "line_scalar");
        ("2d", VStr "2d"); ("3d", VStr "3d"); ("1d", VStr "1d")].

(** [if (cond) setCell(v)] *)
Definition when_set (cond : bool) (c : App.cell) (v : value) (s : App.state)
  : App.state :=
  if cond then App.set c v s else s.

(** [if (v) setCell(v.map(String))] *)
Definition when_set_strings (c : App.cell) (what : string) (v : value)
    (s : App.state) : outcome unit * App.state :=
  if truthy v then
    match map_String what v with
    | Returned strings => (Returned tt, App.set c strings s)
    | Thrown e => (Thrown e, s)
    end
  else (Returned tt, s).

(** Sequencing: what follows a statement runs unless it threw; the
    cells already set stay set. *)
Definition and_then (r : outcome unit * App.state)
    (k : App.state -> outcome unit * App.state) : outcome unit * App.state :=
  match r with
  | (Returned _, s) => k s
  | (Thrown e, s) => (Thrown e, s)
  end.

(** The handler of a click on an example, run on the form [s0] that was
    rendered. *)
Definition handleExampleSelect (ex : value) (s0 : App.state)
  : outcome unit * App.state :=
  match get ex "type" with
  | Thrown e => (Thrown e, s0)
  | Returned type =>
      let mapped := member_at ToString typeMap type in
      let region := member ex "region" in
      let in_space :=
        App.includes ["box"; "sphere"; "cylinder"] (member region "type") in
      let curve := member ex "curve" in
      let s := when_set (truthy type
                         && is_str (s0 App.integralType) "physics"
                         && truthy mapped)
                 App.integralType mapped s0 in
      let s := when_set (truthy (member ex "integrand"))
                 App.integrand (member ex "integrand") s in
      let s := when_set (truthy (member ex "lower_bound"))
                 App.bounds1D
                 (VObj [("lower", member ex "lower_bound");
                        ("upper", member ex "upper_bound")]) s in
      let s := when_set (truthy region && in_space) App.region3D region s in
      let s := when_set (truthy region && negb in_space)
                 App.region2D region s in
      let s := when_set (truthy (member ex "vector_field"))
                 App.vectorField (member ex "vector_field") s in
      let s := when_set (truthy curve) App.curve
                 (VObj [("x", js_or (member curve "x") (VStr "cos(t)"));
                        ("y", js_or (member curve "y") (VStr "sin(t)"));
                        ("z", js_or (member curve "z") (VStr "0"))]) s in
      let s := when_set (negb (is_undefined (member ex "t_start")))
                 App.tRange
                 (VObj [("start", String_of (member ex "t_start"));
                        ("end", String_of (member ex "t_end"))]) s in
      let s := when_set (truthy (member ex "surface"))
                 App.surface (member ex "surface") s in
      and_then (when_set_strings App.uRange "ex.u_range"
                  (member ex "u_range") s) (fun s =>
      and_then (when_set_strings App.vRange "ex.v_range"
                  (member ex "v_range") s) (fun s =>
      let s := when_set (truthy (member ex "scalar_field"))
                 App.scalarField (member ex "scalar_field") s in
      let s := when_set (truthy (member ex "operation"))
                 App.vectorOp (member ex "operation") s in
      let s := when_set (truthy (member ex "P"))
                 App.P_field (member ex "P") s in
      let s := when_set (truthy (member ex "Q"))
                 App.Q_field (member ex "Q") s in
      (Returned tt, s)))
  end.

End Selection.

(** The keys of [typeMap]. *)
Definition typeMap_keys : list string :=
  ["vector_field"; "flux"; "line_vector"; "line_scalar"; "2d"; "3d"; "1d"].

(** The first one-dimensional example of the catalogue. *)
Definition polynomial_example : value :=
  VObj [("name", VStr "Polynomial"); ("integrand", VStr "x^2");
        ("lower_bound", VStr "0"); ("upper_bound", VStr "1")].

(** The Green's-theorem example of the catalogue. *)
Definition greens_example : value :=
  VObj [("name", VStr "Green's Theorem (Area)"); ("type", VStr "greens");
        ("vector_field", VObj [("x", VStr "-y/2"); ("y", VStr "x/2")]);
        ("curve", VObj [("x", VStr "cos(t)"); ("y", VStr "sin(t)")]);
        ("t_start", VNum 0); ("t_end", VStr "2*pi");
        ("description", VStr "oint(-y dx + x dy)/2 = Area");
        ("expected", VStr "pi")].

(** The point-charge example of the catalogue. *)
Definition point_charge_example : value :=
  VObj [("name", VStr "Point Charge E-field");
        ("category", VStr "electromagnetism"); ("type", VStr "vector_field");
        ("vector_field",
           VObj [("x", VStr "x/(x^2+y^2+z^2)^(3/2)");
                 ("y", VStr "y/(x^2+y^2+z^2)^(3/2)");
                 ("z", VStr "z/(x^2+y^2+z^2)^(3/2)")]);
        ("description", VStr "E = kq/r^2 radial field");
        ("physics_note", VStr "Coulombs law")].

(** *** The result panels ([ResultDisplay.jsx]) and their place in [App] *)

(** Whether [VectorOperationResult] renders its panel: it returns [null]
    unless [result?.result] is truthy. *)
Definition VectorOperationResult_renders (result : value) : bool :=
  truthy (opt_member result "result").

(** Whether [App] shows the vector-operation panel:
    [integralType === 'vector_operations' && result && !loading], and the
    panel itself renders. *)
Definition shows_vector_panel (s : App.state) (h : hook_state) : bool :=
  is_str (s App.integralType) "vector_operations"
  && truthy (result h) && negb (loading h)
  && VectorOperationResult_renders (result h).

(** *** Editing a field of the form ([RegionInputs.jsx]) *)

(** [props] with the property [k] set to [v]: in place when the key is
    there, at the end otherwise. *)
Definition assign (props : list (string * value)) (k : string) (v : value)
  : list (string * value) :=
  if existsb (fun p => fst p =? k) props
  then map (fun p => if fst p =? k then (fst p, v) else p) props
  else props ++ [(k, v)].

(** [{ ...o, k: v }] for an object [o], or for [null], [undefined], a
    boolean or a number, which spread to nothing.  (A string or an array
    would spread to its indices; no cell of the form is edited this way
    while it holds one.) *)
Definition spread_with (o : value) (k : string) (v : value) : value :=
  match o with
  | VObj props => VObj (assign props k v)
  | _ => VObj [(k, v)]
  end.

(** The [onChange] of an input of [VectorFieldInput], [CurveInput],
    [SurfaceInput] or a region input: the cell is set to a copy of its
    object with one field replaced. *)
Definition edit_field (c : App.cell) (k : string) (v : value) (s : App.state)
  : App.state :=
  App.set c (spread_with (s c) k v) s.

(** *** The surface mesh ([Visualization3D.jsx]) *)

(** The triangle indices of a surface grid of [rows] by [cols] samples:
    two triangles per grid square, the vertex of sample [(i, j)] being
    [i * cols + j]. *)
Definition surface_indices (rows cols : nat) : list nat :=
  flat_map (fun i : nat =>
    flat_map (fun j : nat =>
      let a := (i * cols + j)%nat in
      [a; a + 1; a + cols; a + 1; a + cols + 1; a + cols]%nat)
      (seq 0 (cols - 1)))
    (seq 0 (rows - 1)).

(** The number of vertices of the grid: three coordinates are pushed per
    sample. *)
Definition surface_vertices (rows cols : nat) : nat := (rows * cols)%nat.

(** *** The examples panel ([ExamplesPanel.jsx]) *)

(** SameValueZero, by which a [Set] tells its elements apart.  Two
    objects or arrays met in a catalogue are distinct objects. *)
Definition same_value_zero (a b : value) : bool :=
  match a, b with
  | VUndefined, VUndefined => true
  | VNull, VNull => true
  | VNaN, VNaN => true
  | VBool x, VBool y => Bool.eqb x y
  | VNum x, VNum y => Qeq_bool x y
  | VInf x, VInf y => Bool.eqb x y
  | VStr x, VStr y => x =? y
  | VBuiltin x, VBuiltin y => x =? y
  | _, _ => false
  end.

(** [[...new Set(items)]]: the items in the order of their first
    occurrence. *)
Definition Set_of (items : list value) : list value :=
  fold_left (fun seen v =>
               if existsb (same_value_zero v) seen then seen else seen ++ [v])
            items [].

(** The items of an array on which [map] is called; on anything else
    there is no [map] to call. *)
Definition array_items (what : string) (v : value) : outcome (list value) :=
  match v with
  | VArr items => Returned items
  | _ => Thrown (JsError "TypeError" (what ++ ".map is not a function"))
  end.

(** [items.map(f)] for an [f] that may throw. *)
Fixpoint traverse {A B : Type} (f : A -> outcome B) (items : list A)
  : outcome (list B) :=
  match items with
  | [] => Returned []
  | x :: rest =>
      y <- f x ;;
      ys <- traverse f rest ;;
      Returned (y :: ys)
  end.

(** The label of a category in the drop-down is computed with
    [cat.charAt(0)] and [cat.slice(1)] unless the category is ['all']:
    that throws for a category that is not a string.  (The text of the
    label is not modelled.) *)
Definition category_label (cat : value) : outcome unit :=
  match cat with
  | VStr _ => Returned tt
  | VUndefined | VNull => _ <- get cat "charAt" ;; Returned tt
  | _ => Thrown (JsError "TypeError" "cat.charAt is not a function")
  end.

(** The physics view of the panel, for the catalogue [examples] (not
    [null]) and the category chosen in the drop-down: the categories it
    offers and the examples it lists. *)
Definition physics_panel (examples : value) (physicsCategory : string)
  : outcome (list value * list value) :=
  physicsExamples <-
    array_items "physicsExamples" (js_or (member examples "physics") (VArr [])) ;;
  found <- traverse (fun e => get e "category") physicsExamples ;;
  let categories := VStr "all" :: Set_of found in
  let filtered :=
    if physicsCategory =? "all" then physicsExamples
    else filter (fun e => is_str (member e "category") physicsCategory)
           physicsExamples in
  _ <- traverse category_label categories ;;
  Returned (categories, filtered).

(** ** The lookup and the state around it *)





(** ** Properties *)

(** *** The client on the initial form *)

Example flux_config_of_initial_form :
  getComputeConfig ToString_basic (VStr "flux") initial_form
  = Returned ("/integrate/flux",
              flux_request (member initial_form "vectorField") hemisphere
                hemisphere_u hemisphere_v).
Proof. reflexivity. Qed.

Example compute_flux_in_demo_mode :
  compute ToString_basic true failing_transport call_native_on_null
    (VStr "flux") initial_form
    initial_state
  = (Returned tt,
     {| result := member DEMO_FLUX "result";
        visualization := member DEMO_FLUX "visualization";
        loading := false;
        error := VNull |}).
Proof. reflexivity. Qed.

Example compute_against_failing_server :
  compute ToString_basic false failing_transport call_native_on_null
    (VStr "1d") initial_form
    initial_state
  = (Returned tt,
     {| result := VNull; visualization := VNull; loading := false;
        error := VStr "Could not parse integrand" |}).
Proof. reflexivity. Qed.

Example compute_unknown_type :
  compute ToString_basic true failing_transport call_native_on_null
    (VStr "4d") initial_form
    initial_state
  = (Returned tt,
     {| result := VNull; visualization := VNull; loading := false;
        error := VStr "Unknown integral type" |}).
Proof. reflexivity. Qed.

(** A vector operation named [constructor] is answered with the function
    [Object]; the setters call it on the [null] in their cells, and the
    hook holds what [Object(null)] returns, an empty object. *)
Example compute_constructor_in_demo_mode :
  handleCompute ToString_basic true failing_transport call_native_on_null
    (App.set App.vectorOp (VStr "constructor")
       (App.set App.integralType (VStr "vector_operations") App.initial))
    initial_state
  = (Returned tt,
     {| result := VObj []; visualization := VObj []; loading := false;
        error := VNull |}).
Proof. reflexivity. Qed.

(** Named [valueOf], it is answered with a function that throws for want
    of a receiver: [compute] settles and the cells keep their [null]; the
    exception is raised afterwards, when the component renders. *)
Example compute_valueOf_in_demo_mode :
  handleCompute ToString_basic true failing_transport call_native_on_null
    (App.set App.vectorOp (VStr "valueOf")
       (App.set App.integralType (VStr "vector_operations") App.initial))
    initial_state
  = (Returned tt,
     {| result := VNull; visualization := VNull; loading := false;
        error := VNull |}).
Proof. reflexivity. Qed.

(** *** The lookup *)

(** What [DEMO_VECTOR_OPS[k]] can be: one of the three own entries, or
    whatever the prototype chain holds under [k]. *)
Lemma DEMO_VECTOR_OPS_member (k : string) :
  member DEMO_VECTOR_OPS k = member DEMO_VECTOR_OPS "gradient"
  \/ member DEMO_VECTOR_OPS k = member DEMO_VECTOR_OPS "divergence"
  \/ member DEMO_VECTOR_OPS k = member DEMO_VECTOR_OPS "curl"
  \/ (member DEMO_VECTOR_OPS k = inherited k
      /\ k <> "gradient" /\ k <> "divergence" /\ k <> "curl").
Proof.
  unfold member at 1 5 7. unfold DEMO_VECTOR_OPS at 1 5 7.
  unfold own.
  destruct (String.eqb_spec "curl" k) as [<- | Hc].
  - right; right; left; reflexivity.
  - destruct (String.eqb_spec "divergence" k) as [<- | Hd].
    + right; left; reflexivity.
    + destruct (String.eqb_spec "gradient" k) as [<- | Hg].
      * left; reflexivity.
      * right; right; right. repeat split; congruence.
Qed.

Lemma inherited_cases (k : string) :
  inherited k = VBuiltin k \/ inherited k = VUndefined.
Proof.
  unfold inherited.
  destruct (existsb (String.eqb k) object_prototype_names); auto.
Qed.

(** A POST lookup yields [null], a response whose [success] is [true], or
    a member of [Object.prototype]. *)
Lemma getDemoResponse_post_cases (ToString : value -> string) (path : string)
    (body : value) :
  let r := getDemoResponse ToString "POST" path body in
  r = VNull \/ member r "success" = VBool true \/ exists k, r = VBuiltin k.
Proof.
  unfold getDemoResponse.
  change ("POST" =? "GET") with false. cbv iota.
  repeat match goal with
         | |- context [if path =? ?s then _ else _] =>
             destruct (path =? s);
             [ first [ right; left; reflexivity | idtac ] | ]
         end.
  - unfold member_at, js_or.
    set (k := to_string _ _).
    destruct (DEMO_VECTOR_OPS_member k) as [E | [E | [E | [E _]]]];
      rewrite E.
    + right; left; reflexivity.
    + right; left; reflexivity.
    + right; left; reflexivity.
    + destruct (inherited_cases k) as [E' | E']; rewrite E'.
      * right; right; exists k; reflexivity.
      * right; left; reflexivity.
  - left; reflexivity.
Qed.

(** *** Theorem verification *)

(** C1, counterexample.  The answer to a Green's-theorem request carries
    no [verification] record at all: neither an interior value nor a
    difference is reported.  (The answer to a Stokes request reports the
    two values 6.283185 and 6.283185 and the difference 1e-10, which is
    not the absolute difference of the two.) *)
Lemma greens_reports_no_difference :
  In "greens" theorem_tags
  /\ getComputeConfig ToString_basic (VStr "theorems") initial_form
     = Returned ("/theorem/greens", greens_request)
  /\ verification_report
       (post ToString_basic (theorem_path "greens") greens_request) = None
  /\ reports_absolute_difference
       (post ToString_basic (theorem_path "greens") greens_request) = false
  /\ verification_report (post ToString_basic (theorem_path "stokes") VNull)
     = Some (6.283185, 6.283185, 1e-10)
  /\ ~ 1e-10 == Qabs (6.283185 - 6.283185).
Proof.
  split; [ left; reflexivity | ].
  repeat split; try reflexivity. discriminate.
Qed.

(** C1, amended.  Whatever the body, the answers to Stokes and divergence
    requests report the boundary value, the interior value (the
    [numerical] fields of their two integrals) and a non-negative
    difference; the answer to a Green's request reports the boundary line
    integral and the integrand [curl_z] of the interior integral, and
    has no field for an interior value or a difference. *)
Theorem theorem_responses_report (ToString : value -> string) (body : value) :
  let greens := post ToString (theorem_path "greens") body in
  let stokes := post ToString (theorem_path "stokes") body in
  let divergence := post ToString (theorem_path "divergence") body in
  (exists b i d,
      verification_report stokes = Some (b, i, d)
      /\ numerical (integral_of (member stokes "line_integral")) = VNum b
      /\ numerical (integral_of (member stokes "surface_integral")) = VNum i
      /\ 0 <= d)
  /\ (exists b i d,
         verification_report divergence = Some (b, i, d)
         /\ numerical (integral_of (member divergence "flux_integral")) = VNum b
         /\ numerical (integral_of (member divergence "volume_integral"))
            = VNum i
         /\ 0 <= d)
  /\ keys greens
     = [ "success"; "theorem"; "P"; "Q"; "line_integral"; "curl_z";
         "curl_z_latex"; "description"; "visualization" ]
  /\ numerical (integral_of (member greens "line_integral")) = VNum 3.141593
  /\ member greens "curl_z" = VStr "1"
  /\ verification_report greens = None.
Proof.
  cbv zeta.
  split; [ | split; [ | repeat split ] ].
  - exists 6.283185, 6.283185, 1e-10.
    repeat split; try reflexivity. discriminate.
  - exists 12.566371, 12.566371, 0.001.
    repeat split; try reflexivity. discriminate.
Qed.

(** *** Integral results *)



(** *** Flux *)

(** C3, counterexample.  For the radial field through the hemisphere,
    the flux request and the request with the two ranges exchanged are
    both answered with 6.283185: the flux is not negated. *)
Lemma flux_not_negated_by_swap :
  exists a a',
    flux_of ToString_basic
      (flux_request radial_field hemisphere hemisphere_u hemisphere_v) = Some a
    /\ flux_of ToString_basic
         (flux_request radial_field hemisphere hemisphere_v hemisphere_u)
       = Some a'
    /\ ~ a' == - a.
Proof.
  exists 6.283185, 6.283185.
  repeat split; try reflexivity. discriminate.
Qed.

(** C3, amended.  The demo lookup answers a flux request without reading
    its body: whatever the field, the surface and the two ranges,
    exchanging the ranges leaves the reported flux as it is, 6.283185,
    sign and magnitude. *)
Theorem flux_unchanged_by_swap (ToString : value -> string)
    (vector_field surface u_range v_range : value) :
  flux_of ToString (flux_request vector_field surface v_range u_range)
  = flux_of ToString (flux_request vector_field surface u_range v_range)
  /\ flux_of ToString (flux_request vector_field surface u_range v_range)
     = Some 6.283185.
Proof.
  split; reflexivity.
Qed.

(** *** Parsing *)

(** C4, counterexample.  The expression [foo(x) $ 1] holds an undeclared
    identifier and a token outside the allow-list; its parse request is
    answered with a success, the parse of [x**2]. *)
Lemma parse_request_not_rejected :
  let text := "foo(x) $ 1" in
  let r := post ToString_basic "/api/parse" (parse_request text) in
  ParserSpec.must_be_rejected ["x"; "y"; "z"; "t"; "u"; "v"] text = true
  /\ is_failure r = false
  /\ member r "success" = VBool true
  /\ member r "parsed" = VStr "x**2".
Proof.
  cbv zeta. repeat split; reflexivity.
Qed.

(** C4, amended.  The demo lookup never fails on a parse request and
    never answers with a ParseError: whatever the body, well-formed
    expression or not, the answer is the fixed success response for
    [x**2], and [apiRequest] in demo mode resolves with it. *)
Theorem parse_lookup_fixed (ToString : value -> string)
    (transport : string -> value -> outcome value) (body : value) :
  post ToString "/api/parse" body = DEMO_PARSE
  /\ is_failure DEMO_PARSE = false
  /\ member DEMO_PARSE "parsed" = VStr "x**2"
  /\ apiRequest ToString true transport "/parse" body = Returned DEMO_PARSE.
Proof.
  repeat split; reflexivity.
Qed.

(** *** Known values *)

(** Seven decimals of pi, from the alternating series of
    [atan (1/3)] and [atan (1/7)]. *)
Lemma PI_enclosure : (3.1415926 < PI < 3.1415927)%R.
Proof.
  destruct (PI_2_3_7_ineq 4) as [lower upper].
  unfold sum_f_R0, tg_alt, PI_2_3_7_tg, Ratan_seq in lower, upper.
  simpl in lower, upper.
  split; lra.
Qed.

(** C5.  Whatever the body, the answer to a divergence-theorem request is
    the one for F = (x, y, z); its flux integral and its volume integral
    are both within 1e-3 of 4 pi, and the difference it reports is at
    most 1e-3. *)
Theorem divergence_theorem_values (ToString : value -> string) (body : value) :
  let r := post ToString (theorem_path "divergence") body in
  member r "vector_field" = radial_field
  /\ exists flux volume difference : Q,
      numerical (integral_of (member r "flux_integral")) = VNum flux
      /\ numerical (integral_of (member r "volume_integral")) = VNum volume
      /\ member (member r "verification") "difference" = VNum difference
      /\ (Rabs (Q2R flux - 4 * PI) <= 1 / 1000)%R
      /\ (Rabs (Q2R volume - 4 * PI) <= 1 / 1000)%R
      /\ difference <= 1e-3.
Proof.
  cbv zeta. split; [ reflexivity | ].
  exists 12.566371, 12.566371, 0.001.
  assert (close : (Rabs (Q2R 12.566371 - 4 * PI) <= 1 / 1000)%R).
  { destruct PI_enclosure as [lower upper].
    unfold Q2R; simpl.
    apply Rabs_le. split; lra. }
  repeat split; try reflexivity; try exact close.
  discriminate.
Qed.

(** C6, counterexample.  The arc-length request for the unit circle is
    answered with the numerical value 6.283185 and the error estimate
    1e-12, but 6.283185 is further than 1e-12 from 2 pi. *)
Lemma arc_length_outside_reported_error :
  let r := member (post ToString_basic "/api/integrate/line/scalar"
                     (VObj [("integrand", VStr "1");
                            ("curve", VObj [("x", VStr "cos(t)");
                                            ("y", VStr "sin(t)");
                                            ("z", VStr "0")]);
                            ("t_start", VStr "0"); ("t_end", VStr "2*pi")]))
              "result" in
  exists value estimate : Q,
    numerical (integral_of r) = VNum value
    /\ error_estimate (integral_of r) = VNum estimate
    /\ ~ (Rabs (Q2R value - 2 * PI) <= Q2R estimate)%R.
Proof.
  cbv zeta. exists 6.283185, 1e-12.
  repeat split; try reflexivity.
  destruct PI_enclosure as [lower upper].
  intros within.
  pose proof (Rle_abs (- (Q2R 6.283185 - 2 * PI))) as below.
  rewrite Rabs_Ropp in below.
  unfold Q2R in within, below; simpl in within, below. lra.
Qed.

(** C6, amended.  Whatever the body, the answer to a scalar line integral
    request reports the numerical value 6.283185, which is 2 pi rounded
    to six decimals (within 5e-7 of 2 pi), and the error estimate
    1e-12. *)
Theorem arc_length_six_decimals (ToString : value -> string) (body : value) :
  let r := member (post ToString "/api/integrate/line/scalar" body) "result" in
  numerical (integral_of r) = VNum 6.283185
  /\ error_estimate (integral_of r) = VNum 1e-12
  /\ (Rabs (Q2R 6.283185 - 2 * PI) <= 5 / 10000000)%R.
Proof.
  cbv zeta. repeat split; try reflexivity.
  destruct PI_enclosure as [lower upper].
  unfold Q2R; simpl.
  apply Rabs_le. split; lra.
Qed.

(** *** Requests *)

Lemma get_member (v : value) (k : string) :
  nullish v = false -> get v k = Returned (member v k).
Proof.
  destruct v; simpl; intros N; try reflexivity; discriminate.
Qed.

Lemma get_nullish (v : value) (k : string) :
  nullish v = true -> exists e, get v k = Thrown e.
Proof.
  destruct v; simpl; intros N; try discriminate; eexists; reflexivity.
Qed.

Lemma member_success_not_nullish (data : value) (b : bool) :
  member data "success" = VBool b -> nullish data = false.
Proof.
  destruct data; simpl; intros E; try reflexivity; discriminate.
Qed.

(** What [apiRequest] resolves with is never [null] or [undefined]. *)
Lemma apiRequest_resolves_not_nullish (ToString : value -> string)
    (isDemo : bool) (transport : string -> value -> outcome value)
    (endpoint : string) (body data : value) :
  apiRequest ToString isDemo transport endpoint body = Returned data ->
  nullish data = false.
Proof.
  unfold apiRequest. destruct isDemo.
  - unfold demoApiRequest.
    generalize (getDemoResponse ToString "POST" ("/api" ++ endpoint)%string body).
    intros r. destruct (truthy r) eqn:T; cbn [negb]; intros E;
      [ | discriminate ].
    injection E as <-. destruct r; try reflexivity; discriminate T.
  - unfold realApiRequest.
    destruct (transport (API_BASE ++ endpoint)%string body) as [d | e];
      cbn [bind]; [ | discriminate ].
    destruct (nullish d) eqn:N.
    + destruct (get_nullish d "success" N) as [e ->]. discriminate.
    + rewrite !(get_member d _ N). cbn [bind].
      destruct (truthy (member d "success")); cbn [negb bind];
        intros E; [ | discriminate ].
      injection E as <-. exact N.
Qed.

(** C7.  Whatever the mode, the endpoint and the body, a response that
    [apiRequest] resolves with does not have [success] false; and outside
    demo mode, when the decoded answer of the server has [success] false,
    [apiRequest] throws an [Error] whose message is the answer's [error],
    or 'Computation failed' when it has none. *)
Theorem apiRequest_never_resolves_failure (ToString : value -> string)
    (isDemo : bool) (transport : string -> value -> outcome value)
    (endpoint : string) (body : value) :
  (forall data,
      apiRequest ToString isDemo transport endpoint body = Returned data ->
      member data "success" <> VBool false
      /\ (isDemo = false -> truthy (member data "success") = true))
  /\ (forall data,
         isDemo = false ->
         transport (API_BASE ++ endpoint)%string body = Returned data ->
         member data "success" = VBool false ->
         apiRequest ToString isDemo transport endpoint body
         = Thrown (JsError "Error"
                     (to_string ToString
                        (js_or (member data "error")
                               (VStr "Computation failed"))))).
Proof.
  split.
  - intros data. unfold apiRequest. destruct isDemo.
    + unfold demoApiRequest.
      destruct (getDemoResponse_post_cases ToString ("/api" ++ endpoint)%string body)
        as [E | [E | [k E]]]; cbv zeta in E; revert E;
        generalize (getDemoResponse ToString "POST" ("/api" ++ endpoint)%string body);
        intros r E.
      * rewrite E. discriminate.
      * destruct (truthy r); cbn [negb]; intros R; [ | discriminate ].
        injection R as <-. rewrite E. split; discriminate.
      * rewrite E. cbn [truthy negb]. intros R. injection R as <-.
        split; discriminate.
    + unfold realApiRequest.
      destruct (transport (API_BASE ++ endpoint)%string body) as [d | e];
        cbn [bind]; [ | discriminate ].
      destruct (nullish d) eqn:N.
      * destruct (get_nullish d "success" N) as [e ->]. discriminate.
      * rewrite !(get_member d _ N). cbn [bind].
        destruct (truthy (member d "success")) eqn:T; cbn [negb bind];
          intros R; [ | discriminate ].
        injection R as <-. split; [ | intros _; exact T ].
        intros F. rewrite F in T. discriminate.
  - intros data -> Hd Hs.
    pose proof (member_success_not_nullish _ _ Hs) as N.
    unfold apiRequest, realApiRequest. rewrite Hd. cbn [bind].
    rewrite !(get_member data _ N). cbn [bind].
    rewrite Hs. cbn [truthy negb bind]. reflexivity.
Qed.

(** C7 at two requests: a demo lookup that resolves, and a server that
    answers with a failure. *)
Lemma apiRequest_never_resolves_failure_witness :
  member DEMO_1D "success" <> VBool false
  /\ apiRequest ToString_basic false failing_transport "/integrate/1d"
       (VObj [("integrand", VStr "x^"); ("lower_bound", VStr "0");
              ("upper_bound", VStr "1")])
     = Thrown (JsError "Error" "Could not parse integrand").
Proof.
  split.
  - apply (proj1 (apiRequest_never_resolves_failure ToString_basic true
                    failing_transport "/integrate/1d" VNull)).
    reflexivity.
  - apply (proj2 (apiRequest_never_resolves_failure ToString_basic false
                    failing_transport "/integrate/1d"
                    (VObj [("integrand", VStr "x^"); ("lower_bound", VStr "0");
                           ("upper_bound", VStr "1")]))
             (VObj [("success", VBool false);
                    ("error", VStr "Could not parse integrand")]));
      reflexivity.
Defined.

(** In demo mode a request never reaches the network: its outcome is
    the same whatever the server would answer. *)
Lemma demo_request_ignores_network (ToString : value -> string)
    (transport transport' : string -> value -> outcome value)
    (endpoint : string) (body : value) :
  apiRequest ToString true transport endpoint body
  = apiRequest ToString true transport' endpoint body.
Proof. reflexivity. Qed.

(** *** The lookup and the state around it *)







(** *** The computation hook *)


(** *** Vector operations *)

(** An operation tag that names neither an entry of [DEMO_VECTOR_OPS]
    nor a member of [Object.prototype] is answered with the gradient
    response, and so is a body without a tag. *)
Lemma vector_operation_fallback (ToString : value -> string) (tag : string) :
  ~ In tag ["gradient"; "divergence"; "curl"] ->
  ~ In tag object_prototype_names ->
  post ToString "/api/vector/operations" (VObj [("operation", VStr tag)])
  = member DEMO_VECTOR_OPS "gradient"
  /\ post ToString "/api/vector/operations" (VObj [])
     = member DEMO_VECTOR_OPS "gradient"
  /\ post ToString "/api/vector/operations" VUndefined
     = member DEMO_VECTOR_OPS "gradient".
Proof.
  intros Hown Hproto.
  split; [ | split; reflexivity ].
  unfold post, getDemoResponse.
  change ("POST" =? "GET") with false. cbv iota.
  change ("/api/vector/operations" =? "/api/parse") with false.
  cbv iota. cbn [String.eqb Ascii.eqb Bool.eqb].
  unfold opt_member. cbn [nullish member own].
  rewrite String.eqb_refl.
  unfold js_or at 2. cbn [truthy].
  destruct (String.eqb_spec tag "") as [-> | Hne]; cbn [negb].
  - reflexivity.
  - unfold member_at, js_or. cbn [to_string].
    destruct (DEMO_VECTOR_OPS_member tag) as [E | [E | [E | [E _]]]].
    + rewrite E. reflexivity.
    + exfalso. apply Hown. 
      assert (tag = "divergence") as ->; [ | right; left; reflexivity ].
      revert E. unfold member, DEMO_VECTOR_OPS, own.
      destruct (String.eqb_spec "curl" tag); [ discriminate | ].
      destruct (String.eqb_spec "divergence" tag); [ congruence | ].
      destruct (String.eqb_spec "gradient" tag); [ discriminate | ].
      destruct (inherited_cases tag) as [I | I]; rewrite I; discriminate.
    + exfalso. apply Hown.
      assert (tag = "curl") as ->; [ | right; right; left; reflexivity ].
      revert E. unfold member, DEMO_VECTOR_OPS, own.
      destruct (String.eqb_spec "curl" tag); [ congruence | ].
      destruct (String.eqb_spec "divergence" tag); [ discriminate | ].
      destruct (String.eqb_spec "gradient" tag); [ discriminate | ].
      destruct (inherited_cases tag) as [I | I]; rewrite I; discriminate.
    + rewrite E. unfold inherited.
      destruct (existsb (String.eqb tag) object_prototype_names) eqn:X.
      * exfalso. apply Hproto.
        apply existsb_exists in X. destruct X as [k [Hin Hk]].
        apply String.eqb_eq in Hk. subst k. exact Hin.
      * reflexivity.
Qed.

(** C10, the failing request.  The tag [constructor] is none of gradient,
    divergence and curl, yet the lookup answers it with the member that
    [DEMO_VECTOR_OPS] inherits under that name, not with the gradient
    response. *)
Theorem vector_operation_inherited_member (ToString : value -> string) :
  let r := post ToString "/api/vector/operations"
             (VObj [("operation", VStr "constructor")]) in
  r = VBuiltin "constructor"
  /\ r <> member DEMO_VECTOR_OPS "gradient"
  /\ keys r = [].
Proof.
  cbv zeta. repeat split. discriminate.
Qed.

(** ** Further properties of the client *)

(** *** Shared lemmas *)

Lemma js_or_truthy (a b : value) :
  truthy b = true -> truthy (js_or a b) = true.
Proof.
  intros Hb. unfold js_or. destruct (truthy a) eqn:Ha; assumption.
Qed.

Lemma truthy_not_nullish (v : value) : truthy v = true -> nullish v = false.
Proof.
  destruct v; simpl; intros T; try reflexivity; discriminate.
Qed.


(** The final state of one call of [compute], read off the outcome of its
    request: the setters of [result] and [visualization] find [null] in
    their cells. *)
Lemma compute_run (ToString : value -> string) (isDemo : bool)
    (transport : string -> value -> outcome value)
    (call_native : string -> value -> outcome value)
    (integralType formState : value) (s0 : hook_state) :
  compute ToString isDemo transport call_native integralType formState s0
  = (Returned tt,
     match computation ToString isDemo transport integralType formState with
     | Returned data =>
         {| result :=
              next_state call_native (js_or (member data "result") data)
                VNull;
            visualization :=
              next_state call_native
                (js_or (member data "visualization") data) VNull;
            loading := false;
            error := VNull |}
     | Thrown e =>
         {| result := VNull; visualization := VNull; loading := false;
            error := VStr (message e) |}
     end).
Proof.
  cbv [compute computation bind_action try_catch_finally lift setLoading
       setError setResult setVisualization].
  destruct (getComputeConfig ToString integralType formState)
    as [[endpoint body] | e]; cbn [bind fst snd].
  - destruct (apiRequest ToString isDemo transport endpoint body)
      as [data | e] eqn:R; cbn [fst snd].
    + apply apiRequest_resolves_not_nullish in R.
      rewrite !(get_member data _ R).
      cbn [fst snd result visualization loading error next_state].
      reflexivity.
    + reflexivity.
  - reflexivity.
Qed.

(** A setter given anything but a function stores it. *)
Lemma next_state_stores (call_native : string -> value -> outcome value)
    (v previous : value) :
  is_function v = false -> next_state call_native v previous = v.
Proof.
  destruct v; try reflexivity. cbn [next_state]. intros ->. reflexivity.
Qed.




(** *** The demo lookup *)

(** X1.  The demo lookup reads nothing of the request body but the
    [operation] of a vector-operations request: two bodies are answered
    alike on every other path, and on that path as soon as they carry the
    same operation. *)
Theorem lookup_reads_only_operation (ToString : value -> string)
    (method path : string) (body body' : value) :
  (path = "/api/vector/operations" ->
   opt_member body "operation" = opt_member body' "operation") ->
  getDemoResponse ToString method path body
  = getDemoResponse ToString method path body'.
Proof.
  intros same. unfold getDemoResponse.
  destruct (method =? "GET"); [ reflexivity | ].
  repeat match goal with
         | |- context [if path =? ?s then _ else _] =>
             destruct (String.eqb_spec path s); [ try reflexivity | ]
         end.
  - rewrite (same e). reflexivity.
  - reflexivity.
Qed.

(** X1 at two gradient requests for different scalar fields. *)
Lemma lookup_reads_only_operation_witness :
  getDemoResponse ToString_basic "POST" "/api/vector/operations"
    (VObj [("operation", VStr "gradient"); ("scalar_field", VStr "x*y*z")])
  = getDemoResponse ToString_basic "POST" "/api/vector/operations"
      (VObj [("operation", VStr "gradient");
             ("scalar_field", VStr "x^2 + y^2 + z^2")]).
Proof.
  apply lookup_reads_only_operation. intros _. reflexivity.
Defined.

(** X2.  A vector-operations request whose operation is a string that
    names no member of [Object.prototype] is answered with a successful
    response: the one of that operation if it is gradient, divergence or
    curl, and the gradient one otherwise (the empty string included). *)
Theorem vector_operation_answer (ToString : value -> string) (body : value)
    (tag : string) :
  opt_member body "operation" = VStr tag ->
  ~ In tag object_prototype_names ->
  let r := post ToString "/api/vector/operations" body in
  member r "success" = VBool true
  /\ member r "operation"
     = VStr (if existsb (String.eqb tag) vector_operations then tag
             else "gradient").
Proof.
  intros Hop Hproto. cbv zeta. unfold post.
  change (getDemoResponse ToString "POST" "/api/vector/operations" body)
    with (js_or (member_at ToString DEMO_VECTOR_OPS
                   (js_or (opt_member body "operation") (VStr "gradient")))
                (member DEMO_VECTOR_OPS "gradient")).
  rewrite Hop.
  destruct (String.eqb_spec tag "") as [-> | Hne].
  - split; reflexivity.
  - assert (js_or (VStr tag) (VStr "gradient") = VStr tag) as ->.
    { unfold js_or. cbn [truthy].
      destruct (String.eqb_spec tag ""); [ contradiction | reflexivity ]. }
    unfold member_at. cbn [to_string].
    unfold vector_operations. cbn [existsb].
    destruct (String.eqb_spec tag "gradient") as [-> | Hg];
      [ split; reflexivity | ].
    destruct (String.eqb_spec tag "divergence") as [-> | Hd];
      [ split; reflexivity | ].
    destruct (String.eqb_spec tag "curl") as [-> | Hc];
      [ split; reflexivity | ].
    cbn [orb].
    destruct (DEMO_VECTOR_OPS_member tag) as [E | [E | [E | [E _]]]].
    + rewrite E. split; reflexivity.
    + exfalso. revert E. unfold member, DEMO_VECTOR_OPS, own.
      destruct (String.eqb_spec "curl" tag); [ congruence | ].
      destruct (String.eqb_spec "divergence" tag); [ congruence | ].
      destruct (String.eqb_spec "gradient" tag); [ congruence | ].
      destruct (inherited_cases tag) as [I | I]; rewrite I; discriminate.
    + exfalso. revert E. unfold member, DEMO_VECTOR_OPS, own.
      destruct (String.eqb_spec "curl" tag); [ congruence | ].
      destruct (String.eqb_spec "divergence" tag); [ congruence | ].
      destruct (String.eqb_spec "gradient" tag); [ congruence | ].
      destruct (inherited_cases tag) as [I | I]; rewrite I; discriminate.
    + rewrite E. unfold inherited.
      destruct (existsb (String.eqb tag) object_prototype_names) eqn:X.
      * exfalso. apply Hproto.
        apply existsb_exists in X. destruct X as [k [Hin Hk]].
        apply String.eqb_eq in Hk. subst k. exact Hin.
      * split; reflexivity.
Qed.

(** X2 at a curl request and at a request for an unknown operation. *)
Lemma vector_operation_answer_witness :
  member (post ToString_basic "/api/vector/operations"
            (VObj [("operation", VStr "curl");
                   ("vector_field", radial_field)])) "operation"
  = VStr "curl"
  /\ member (post ToString_basic "/api/vector/operations"
               (VObj [("operation", VStr "laplacian");
                      ("vector_field", radial_field)])) "operation"
     = VStr "gradient".
Proof.
  split.
  - apply (vector_operation_answer ToString_basic
             (VObj [("operation", VStr "curl");
                    ("vector_field", radial_field)]) "curl");
      [ reflexivity | ].
    simpl. intuition discriminate.
  - apply (vector_operation_answer ToString_basic
             (VObj [("operation", VStr "laplacian");
                    ("vector_field", radial_field)]) "laplacian");
      [ reflexivity | ].
    simpl. intuition discriminate.
Defined.

(** *** The computation hook, continued *)



(** X4.  Nothing of the previous state of the hook survives a call of
    [compute]: the state it ends in is the same whatever result,
    visualization, error or loading flag was there before. *)
Theorem compute_forgets_previous_state (ToString : value -> string)
    (isDemo : bool) (transport : string -> value -> outcome value)
    (call_native : string -> value -> outcome value)
    (integralType formState : value) (s0 s0' : hook_state) :
  compute ToString isDemo transport call_native integralType formState s0
  = compute ToString isDemo transport call_native integralType formState s0'.
Proof.
  rewrite !compute_run. reflexivity.
Qed.


(** *** The form and its request *)

(** Case analysis on the integral type of a configuration of the form:
    one goal per known type, with the configuration computed. *)
Ltac config_cases ty H :=
  unfold getComputeConfig, App.form_state in H;
  cbn [get member own String.eqb Ascii.eqb Bool.eqb bind] in H;
  destruct ty;
  cbn [is_str] in *; try discriminate H;
  repeat match type of H with
         | context [String.eqb ?x ?k] =>
             let E := fresh "E" in
             destruct (String.eqb_spec x k) as [E | E]; [ subst x | ];
             cbn [orb String.eqb Ascii.eqb Bool.eqb] in H
         end;
  try discriminate H.

Ltac config_gets H :=
  repeat match type of H with
         | context [get ?v ?k] =>
             destruct (get v k); cbn [bind] in H; try discriminate H
         end.

(** X6.  The request of the form carries what the form shows: its body
    has the integrand, the vector field, the curve, the scalar field and
    the pair P, Q exactly when the input of that name is displayed. *)
Theorem request_fields_are_displayed (ToString : value -> string)
    (s : App.state) (endpoint : string) (body : value) :
  getComputeConfig ToString (s App.integralType) (App.form_state s)
  = Returned (endpoint, body) ->
  has_field body "integrand" = App.needsIntegrand s
  /\ has_field body "vector_field" = App.needsVectorField s
  /\ has_field body "curve" = App.needsCurve s
  /\ has_field body "scalar_field" = App.showsScalarField s
  /\ has_field body "P" && has_field body "Q" = App.showsGreensFields s.
Proof.
  unfold App.needsIntegrand, App.needsVectorField, App.needsCurve,
    App.showsScalarField, App.showsGreensFields, App.includes.
  generalize (s App.integralType) as ty. intros ty H.
  config_cases ty H;
    repeat match type of H with
           | context [is_str ?a ?b] => destruct (is_str a b)
           end;
    config_gets H;
    injection H as <- <-; cbn; repeat split; reflexivity.
Qed.

(** X6 at the initial form, whose request is the one-dimensional
    integral of [x^2]. *)
Lemma request_fields_are_displayed_witness :
  let body := VObj [("integrand", VStr "x^2"); ("lower_bound", VStr "0");
                    ("upper_bound", VStr "1")] in
  has_field body "integrand" = App.needsIntegrand App.initial
  /\ has_field body "vector_field" = App.needsVectorField App.initial
  /\ has_field body "curve" = App.needsCurve App.initial
  /\ has_field body "scalar_field" = App.showsScalarField App.initial
  /\ has_field body "P" && has_field body "Q"
     = App.showsGreensFields App.initial.
Proof.
  apply (request_fields_are_displayed ToString_basic App.initial
           "/integrate/1d").
  reflexivity.
Defined.

(** X7.  As long as the theorem selected in the theorems view is one of
    greens, stokes and divergence, the request carries the surface
    exactly when the surface input is displayed.  (With any other theorem
    type the request goes to the divergence endpoint with the surface,
    while the input is hidden.) *)
Theorem request_surface_is_displayed (ToString : value -> string)
    (s : App.state) (endpoint : string) (body : value) :
  (is_str (s App.integralType) "theorems" = true ->
   App.includes ["greens"; "stokes"; "divergence"] (s App.theoremType)
   = true) ->
  getComputeConfig ToString (s App.integralType) (App.form_state s)
  = Returned (endpoint, body) ->
  has_field body "surface" = App.needsSurface s.
Proof.
  unfold App.needsSurface, App.includes.
  generalize (s App.integralType) as ty. intros ty Hth H.
  config_cases ty H;
    try (repeat match type of H with
                | context [is_str ?a ?b] => destruct (is_str a b)
                end;
         config_gets H; injection H as <- <-; reflexivity).
  cbn [is_str String.eqb Ascii.eqb Bool.eqb] in Hth.
  specialize (Hth eq_refl). cbn [existsb] in Hth.
  revert Hth H. generalize (s App.theoremType) as th. intros th Hth H.
  destruct th; cbn [is_str orb] in *; try discriminate Hth.
  repeat match type of Hth with
         | context [String.eqb ?x ?k] =>
             let E := fresh "E" in
             destruct (String.eqb_spec x k) as [E | E]; [ subst x | ];
             cbn [orb String.eqb Ascii.eqb Bool.eqb] in *
         end;
    try discriminate Hth;
    config_gets H; injection H as <- <-; reflexivity.
Qed.

(** X7 at the theorems view of the initial form, where Green's theorem
    is selected. *)
Lemma request_surface_is_displayed_witness :
  has_field greens_request "surface"
  = App.needsSurface (App.set App.integralType (VStr "theorems") App.initial).
Proof.
  apply (request_surface_is_displayed ToString_basic
           (App.set App.integralType (VStr "theorems") App.initial)
           "/theorem/greens");
    reflexivity.
Defined.

(** X8.  The divergence-theorem request sends the three-dimensional
    region of the form as its [volume_region], although none of the
    region inputs is displayed in the theorems view. *)
Theorem divergence_request_sends_hidden_region (ToString : value -> string)
    (s : App.state) :
  is_str (s App.integralType) "theorems" = true ->
  is_str (s App.theoremType) "divergence" = true ->
  exists body,
    getComputeConfig ToString (s App.integralType) (App.form_state s)
    = Returned ("/theorem/divergence", body)
    /\ member body "volume_region" = s App.region3D
    /\ App.showsRegion1D s = false /\ App.showsRegion2D s = false
    /\ App.showsRegion3D s = false.
Proof.
  unfold App.showsRegion1D, App.showsRegion2D, App.showsRegion3D,
    getComputeConfig, App.form_state.
  cbn [get member own String.eqb Ascii.eqb Bool.eqb bind].
  generalize (s App.integralType) as ty.
  generalize (s App.theoremType) as th.
  intros th ty Hty Hth.
  destruct ty; try discriminate Hty. destruct th; try discriminate Hth.
  cbn [is_str] in *.
  apply String.eqb_eq in Hty, Hth. subst.
  eexists. split; [ reflexivity | repeat split ].
Qed.

(** X8 at the initial form, switched to the divergence theorem. *)
Lemma divergence_request_sends_hidden_region_witness :
  let s := App.set App.theoremType (VStr "divergence")
             (App.set App.integralType (VStr "theorems") App.initial) in
  exists body,
    getComputeConfig ToString_basic (s App.integralType) (App.form_state s)
    = Returned ("/theorem/divergence", body)
    /\ member body "volume_region" = s App.region3D
    /\ App.showsRegion1D s = false /\ App.showsRegion2D s = false
    /\ App.showsRegion3D s = false.
Proof.
  apply divergence_request_sends_hidden_region; reflexivity.
Defined.

(** X9.  For a form whose bounds, parameter range and curve are objects,
    [getComputeConfig] fails exactly on the integral types it does not
    know, and then with the message 'Unknown integral type'. *)
Theorem config_fails_on_unknown_type_only (ToString : value -> string)
    (s : App.state) (ty : value) :
  nullish (s App.bounds1D) = false ->
  nullish (s App.tRange) = false ->
  nullish (s App.curve) = false ->
  if App.includes known_types ty
  then exists endpoint body,
      getComputeConfig ToString ty (App.form_state s)
      = Returned (endpoint, body)
  else getComputeConfig ToString ty (App.form_state s)
       = Thrown (JsError "Error" "Unknown integral type").
Proof.
  intros Nb Nt Nc.
  unfold App.includes, known_types, getComputeConfig, App.form_state.
  cbn [get member own String.eqb Ascii.eqb Bool.eqb bind].
  rewrite !(get_member _ _ Nb), !(get_member _ _ Nt), !(get_member _ _ Nc).
  cbn [bind].
  destruct ty; cbn [existsb is_str orb]; try reflexivity.
  repeat match goal with
         | |- context [String.eqb ?x ?k] =>
             let E := fresh "E" in
             destruct (String.eqb_spec x k) as [E | E];
             [ subst x; cbn [orb String.eqb Ascii.eqb Bool.eqb];
               repeat match goal with
                      | |- context [is_str ?a ?b] => destruct (is_str a b)
                      end;
               eexists; eexists; reflexivity
             | cbn [orb] ]
         end.
  reflexivity.
Qed.

(** X9 at the initial form, for a known and for an unknown type. *)
Lemma config_fails_on_unknown_type_only_witness :
  (exists endpoint body,
      getComputeConfig ToString_basic (VStr "field_lines")
        (App.form_state App.initial) = Returned (endpoint, body))
  /\ getComputeConfig ToString_basic (VStr "4d") (App.form_state App.initial)
     = Thrown (JsError "Error" "Unknown integral type").
Proof.
  split.
  - apply (config_fails_on_unknown_type_only ToString_basic App.initial
             (VStr "field_lines")); reflexivity.
  - apply (config_fails_on_unknown_type_only ToString_basic App.initial
             (VStr "4d")); reflexivity.
Defined.

(** *** Selecting an example *)

Lemma cell_eqb_spec (a b : App.cell) :
  App.cell_eqb a b = if App.cell_eq_dec a b then true else false.
Proof.
  destruct (App.cell_eq_dec a b) as [<- | N].
  - unfold App.cell_eqb. apply Nat.eqb_refl.
  - destruct a, b; try reflexivity; contradiction.
Qed.

Lemma set_at (c c' : App.cell) (v : value) (s : App.state) :
  App.set c v s c' = if App.cell_eqb c c' then v else s c'.
Proof.
  rewrite cell_eqb_spec. unfold App.set.
  destruct (App.cell_eq_dec c c'); reflexivity.
Qed.

Lemma when_set_at (b : bool) (c c' : App.cell) (v : value) (s : App.state) :
  when_set b c v s c'
  = if App.cell_eqb c c' then (if b then v else s c') else s c'.
Proof.
  unfold when_set. destruct b.
  - apply set_at.
  - destruct (App.cell_eqb c c'); reflexivity.
Qed.

(** Reading a cell through the statements that set cells. *)
Ltac read_cell :=
  repeat (first [ rewrite when_set_at | rewrite set_at ];
          cbn [App.cell_eqb App.index Nat.eqb]).

(** The three ways a [when_set_strings] statement can end. *)
Lemma when_set_strings_cases (ToString : value -> string) (c : App.cell)
    (what : string) (v : value) (s : App.state) :
  (when_set_strings ToString c what v s = (Returned tt, s))
  \/ (exists strings,
         when_set_strings ToString c what v s
         = (Returned tt, App.set c strings s))
  \/ (exists e, when_set_strings ToString c what v s = (Thrown e, s)).
Proof.
  unfold when_set_strings.
  destruct (truthy v); [ | left; reflexivity ].
  destruct (map_String ToString what v) as [strings | e].
  - right; left; exists strings; reflexivity.
  - right; right; exists e; reflexivity.
Qed.

(** Running the handler to its end, whichever way the two range
    statements go. *)
Ltac run_handler ToString ex :=
  unfold handleExampleSelect; cbv zeta; unfold and_then;
  match goal with
  | |- context [when_set_strings ToString App.uRange ?w ?v ?s] =>
      let E := fresh "E" in
      destruct (when_set_strings_cases ToString App.uRange w v s)
        as [E | [[? E] | [? E]]]; rewrite E; clear E
  end;
  try match goal with
  | |- context [when_set_strings ToString App.vRange ?w ?v ?s] =>
      let E := fresh "E" in
      destruct (when_set_strings_cases ToString App.vRange w v s)
        as [E | [[? E] | [? E]]]; rewrite E; clear E
  end;
  cbn [snd fst].

(** X10.  Selecting an example changes the integral type only in the
    physics view, and there an example whose [type] is one of the mapped
    names moves the form to an integral type that [getComputeConfig]
    knows. *)
Theorem example_switches_type_in_physics_only (ToString : value -> string)
    (ex : value) (s : App.state) :
  (is_str (s App.integralType) "physics" = false ->
   snd (handleExampleSelect ToString ex s) App.integralType
   = s App.integralType)
  /\ (forall k,
         is_str (s App.integralType) "physics" = true ->
         get ex "type" = Returned (VStr k) ->
         In k typeMap_keys ->
         exists ty,
           snd (handleExampleSelect ToString ex s) App.integralType = VStr ty
           /\ In ty known_types /\ ty <> "physics").
Proof.
  split.
  - intros Hp. unfold handleExampleSelect.
    destruct (get ex "type") as [type | e]; [ | reflexivity ].
    rewrite Hp, Bool.andb_false_r. cbv zeta. unfold and_then.
    run_handler ToString ex; read_cell; reflexivity.
  - intros k Hp Hget Hk. unfold handleExampleSelect.
    rewrite Hget, Hp. cbv zeta. unfold and_then.
    unfold typeMap_keys in Hk. simpl in Hk.
    destruct Hk as [<- | [<- | [<- | [<- | [<- | [<- | [<- | []]]]]]]];
      run_handler ToString ex; read_cell; cbn;
      eexists; (split; [ reflexivity | split; [ simpl; tauto | discriminate ] ]).
Qed.

(** X10 at the point-charge example, selected in the physics view. *)
Lemma example_switches_type_in_physics_only_witness :
  snd (handleExampleSelect ToString_basic point_charge_example App.initial)
    App.integralType = VStr "1d"
  /\ exists ty,
      snd (handleExampleSelect ToString_basic point_charge_example
             (App.set App.integralType (VStr "physics") App.initial))
        App.integralType = VStr ty
      /\ In ty known_types /\ ty <> "physics".
Proof.
  split.
  - apply (proj1 (example_switches_type_in_physics_only ToString_basic
                    point_charge_example App.initial)).
    reflexivity.
  - apply (proj2 (example_switches_type_in_physics_only ToString_basic
                    point_charge_example
                    (App.set App.integralType (VStr "physics") App.initial))
             "vector_field"); try reflexivity.
    simpl. tauto.
Defined.

Lemma member_truthy_not_nullish (v : value) (k : string) :
  truthy (member v k) = true -> nullish v = false.
Proof.
  destruct v; simpl; intros T; try reflexivity; discriminate.
Qed.

(** X11.  Selecting an example never changes the theorem that is
    selected, whatever the example holds; and an example without [P]
    (without [Q]) leaves that component of the Green's form as it is, as
    the Green's example of the catalogue does, which gives its field as
    [vector_field]. *)
Theorem example_keeps_theorem (ToString : value -> string) (ex : value)
    (s : App.state) :
  let s' := snd (handleExampleSelect ToString ex s) in
  s' App.theoremType = s App.theoremType
  /\ (truthy (member ex "P") = false -> s' App.P_field = s App.P_field)
  /\ (truthy (member ex "Q") = false -> s' App.Q_field = s App.Q_field).
Proof.
  cbv zeta. unfold handleExampleSelect.
  destruct (get ex "type") as [type | e]; [ | repeat split ].
  run_handler ToString ex; read_cell;
    (split; [ reflexivity | split; intros H; rewrite ?H; read_cell;
                            reflexivity ]).
Qed.

(** X11 at the Green's example, selected in the theorems view with the
    Stokes theorem chosen. *)
Lemma example_keeps_theorem_witness :
  let s := App.set App.theoremType (VStr "stokes")
             (App.set App.integralType (VStr "theorems") App.initial) in
  let s' := snd (handleExampleSelect ToString_basic greens_example s) in
  s' App.theoremType = VStr "stokes"
  /\ s' App.P_field = s App.P_field
  /\ s' App.Q_field = s App.Q_field.
Proof.
  cbv zeta.
  pose proof (example_keeps_theorem ToString_basic greens_example
                (App.set App.theoremType (VStr "stokes")
                   (App.set App.integralType (VStr "theorems") App.initial)))
    as H.
  cbv zeta in H. destruct H as [T [P Q]].
  split; [ exact T | split; [ apply P | apply Q ]; reflexivity ].
Defined.

(** X12.  An example with an integrand and a (truthy) lower bound is
    requested as it stands: once it is selected, the one-dimensional
    request carries its integrand and its two bounds. *)
Theorem selected_example_is_requested (ToString : value -> string)
    (ex : value) (s : App.state) :
  truthy (member ex "integrand") = true ->
  truthy (member ex "lower_bound") = true ->
  getComputeConfig ToString (VStr "1d")
    (App.form_state (snd (handleExampleSelect ToString ex s)))
  = Returned ("/integrate/1d",
              VObj [("integrand", member ex "integrand");
                    ("lower_bound", member ex "lower_bound");
                    ("upper_bound", member ex "upper_bound")]).
Proof.
  intros Hi Hl.
  pose proof (member_truthy_not_nullish _ _ Hi) as N.
  assert (cells :
            snd (handleExampleSelect ToString ex s) App.integrand
            = member ex "integrand"
            /\ snd (handleExampleSelect ToString ex s) App.bounds1D
               = VObj [("lower", member ex "lower_bound");
                       ("upper", member ex "upper_bound")]).
  { unfold handleExampleSelect. rewrite (get_member ex _ N).
    run_handler ToString ex; read_cell; rewrite Hi, Hl; split; reflexivity. }
  destruct cells as [Ci Cb].
  unfold getComputeConfig, App.form_state.
  cbn [get member own String.eqb Ascii.eqb Bool.eqb bind is_str].
  rewrite Ci, Cb. reflexivity.
Qed.

(** X12 at the polynomial example of the catalogue. *)
Lemma selected_example_is_requested_witness :
  getComputeConfig ToString_basic (VStr "1d")
    (App.form_state
       (snd (handleExampleSelect ToString_basic polynomial_example
               (App.set App.integrand (VStr "sin(x)") App.initial))))
  = Returned ("/integrate/1d",
              VObj [("integrand", VStr "x^2"); ("lower_bound", VStr "0");
                    ("upper_bound", VStr "1")]).
Proof.
  apply (selected_example_is_requested ToString_basic polynomial_example);
    reflexivity.
Defined.

(** X13.  An example whose lower bound is falsy (absent, the number 0,
    the empty string) leaves the bounds of the form as they are, its
    upper bound included; a start of the parameter range is taken over
    whenever it is not [undefined], the number 0 included, with both ends
    turned into strings. *)
Theorem example_bounds_and_range (ToString : value -> string) (ex : value)
    (s : App.state) :
  nullish ex = false ->
  let s' := snd (handleExampleSelect ToString ex s) in
  (truthy (member ex "lower_bound") = false ->
   s' App.bounds1D = s App.bounds1D)
  /\ (member ex "t_start" <> VUndefined ->
      s' App.tRange
      = VObj [("start", String_of ToString (member ex "t_start"));
              ("end", String_of ToString (member ex "t_end"))]).
Proof.
  intros N. cbv zeta. unfold handleExampleSelect.
  rewrite (get_member ex _ N).
  split.
  - intros Hl.
    run_handler ToString ex; read_cell; rewrite Hl; reflexivity.
  - intros Ht.
    assert (is_undefined (member ex "t_start") = false) as U.
    { destruct (member ex "t_start"); try reflexivity. contradiction. }
    run_handler ToString ex; read_cell; rewrite U; reflexivity.
Qed.

(** X13 at an example that integrates from the number 0, and at the
    Green's example, whose curve starts at the number 0. *)
Lemma example_bounds_and_range_witness :
  snd (handleExampleSelect ToString_basic
         (VObj [("integrand", VStr "x"); ("lower_bound", VNum 0);
                ("upper_bound", VNum 5)]) App.initial) App.bounds1D
  = App.initial App.bounds1D
  /\ snd (handleExampleSelect ToString_basic greens_example App.initial)
       App.tRange
     = VObj [("start", String_of ToString_basic (VNum 0));
             ("end", VStr "2*pi")].
Proof.
  split.
  - apply (proj1 (example_bounds_and_range ToString_basic
                    (VObj [("integrand", VStr "x"); ("lower_bound", VNum 0);
                           ("upper_bound", VNum 5)]) App.initial eq_refl)).
    reflexivity.
  - apply (proj2 (example_bounds_and_range ToString_basic greens_example
                    App.initial eq_refl)).
    discriminate.
Defined.

(** X14.  The region of an example goes to the three-dimensional region
    of the form when its type is box, sphere or cylinder, and to the
    two-dimensional region otherwise (a region without a type included);
    the other of the two regions is left as it is. *)
Theorem example_region_routing (ToString : value -> string) (ex : value)
    (s : App.state) :
  truthy (member ex "region") = true ->
  let s' := snd (handleExampleSelect ToString ex s) in
  if App.includes ["box"; "sphere"; "cylinder"]
       (member (member ex "region") "type")
  then s' App.region3D = member ex "region"
       /\ s' App.region2D = s App.region2D
  else s' App.region2D = member ex "region"
       /\ s' App.region3D = s App.region3D.
Proof.
  intros Hr. cbv zeta.
  pose proof (member_truthy_not_nullish _ _ Hr) as N.
  unfold handleExampleSelect. rewrite (get_member ex _ N).
  destruct (App.includes ["box"; "sphere"; "cylinder"]
              (member (member ex "region") "type")) eqn:Hin;
    run_handler ToString ex; read_cell; rewrite Hr; split; reflexivity.
Qed.

(** X14 at the sphere example of the catalogue and at a region without
    a type. *)
Lemma example_region_routing_witness :
  (snd (handleExampleSelect ToString_basic
          (VObj [("name", VStr "Sphere Volume (4pi/3)");
                 ("integrand", VStr "1");
                 ("region", VObj [("type", VStr "sphere");
                                  ("center", VArr [VNum 0; VNum 0; VNum 0]);
                                  ("radius", VNum 1)])])
          App.initial) App.region2D
   = App.initial App.region2D)
  /\ snd (handleExampleSelect ToString_basic
            (VObj [("region", VObj [("radius", VNum 1)])]) App.initial)
       App.region2D
     = VObj [("radius", VNum 1)].
Proof.
  split.
  - apply (example_region_routing ToString_basic
             (VObj [("name", VStr "Sphere Volume (4pi/3)");
                    ("integrand", VStr "1");
                    ("region", VObj [("type", VStr "sphere");
                                     ("center", VArr [VNum 0; VNum 0; VNum 0]);
                                     ("radius", VNum 1)])])
             App.initial eq_refl).
  - apply (example_region_routing ToString_basic
             (VObj [("region", VObj [("radius", VNum 1)])])
             App.initial eq_refl).
Defined.

(** X15.  The curve of a selected example is completed: the curve of the
    form has exactly the three components [x], [y] and [z]; each is the
    component of the example when that is non-empty, and otherwise
    [cos(t)] for [x], [sin(t)] for [y] and [0] for [z]; so none of the
    three is empty. *)
Theorem selected_curve_is_complete (ToString : value -> string) (ex : value)
    (s : App.state) :
  truthy (member ex "curve") = true ->
  let curve := member ex "curve" in
  let c := snd (handleExampleSelect ToString ex s) App.curve in
  keys c = ["x"; "y"; "z"]
  /\ member c "x"
     = (if truthy (member curve "x") then member curve "x"
        else VStr "cos(t)")
  /\ member c "y"
     = (if truthy (member curve "y") then member curve "y"
        else VStr "sin(t)")
  /\ member c "z"
     = (if truthy (member curve "z") then member curve "z" else VStr "0")
  /\ truthy (member c "x") = true
  /\ truthy (member c "y") = true
  /\ truthy (member c "z") = true.
Proof.
  intros Hc. cbv zeta.
  pose proof (member_truthy_not_nullish _ _ Hc) as N.
  unfold handleExampleSelect. rewrite (get_member ex _ N).
  run_handler ToString ex; read_cell; rewrite Hc;
    cbn [keys map fst member own String.eqb Ascii.eqb Bool.eqb];
    (repeat split; try (apply js_or_truthy; reflexivity)).
Qed.

(** X15 at an example whose curve gives only its second component. *)
Lemma selected_curve_is_complete_witness :
  let ex := VObj [("curve", VObj [("y", VStr "t^2"); ("z", VStr "")])] in
  let c := snd (handleExampleSelect ToString_basic ex App.initial)
             App.curve in
  keys c = ["x"; "y"; "z"]
  /\ member c "x" = VStr "cos(t)"
  /\ member c "y" = VStr "t^2"
  /\ member c "z" = VStr "0"
  /\ truthy (member c "x") = true
  /\ truthy (member c "y") = true
  /\ truthy (member c "z") = true.
Proof.
  exact (selected_curve_is_complete ToString_basic
           (VObj [("curve", VObj [("y", VStr "t^2"); ("z", VStr "")])])
           App.initial eq_refl).
Defined.

(** X16.  The parameter ranges of an example reach the form as strings:
    if the [u_range] of the example is an array, the range of the form is
    the array of its items turned into strings, of the same length, even
    when a later statement of the handler throws. *)
Theorem selected_range_is_strings (ToString : value -> string) (ex : value)
    (items : list value) (s : App.state) :
  member ex "u_range" = VArr items ->
  snd (handleExampleSelect ToString ex s) App.uRange
  = VArr (map (fun v => VStr (to_string ToString v)) items).
Proof.
  intros Hu.
  assert (nullish ex = false) as N.
  { destruct ex; try reflexivity; discriminate Hu. }
  unfold handleExampleSelect. rewrite (get_member ex _ N).
  cbv zeta. unfold and_then.
  unfold when_set_strings at 1. rewrite Hu. cbn [truthy map_String].
  match goal with
  | |- context [when_set_strings ToString App.vRange ?w ?v ?s] =>
      destruct (when_set_strings_cases ToString App.vRange w v s)
        as [E | [[? E] | [? E]]]; rewrite E; clear E
  end;
    cbn [snd fst]; read_cell; reflexivity.
Qed.

(** X16 at the hemisphere example, whose range starts at the number 0. *)
Lemma selected_range_is_strings_witness :
  snd (handleExampleSelect ToString_basic
         (VObj [("surface", hemisphere);
                ("u_range", VArr [VNum 0; VStr "pi/2"]);
                ("v_range", VArr [VNum 0; VStr "2*pi"])])
         App.initial) App.uRange
  = VArr [VStr (ToString_basic (VNum 0)); VStr "pi/2"].
Proof.
  apply (selected_range_is_strings ToString_basic
           (VObj [("surface", hemisphere);
                  ("u_range", VArr [VNum 0; VStr "pi/2"]);
                  ("v_range", VArr [VNum 0; VStr "2*pi"])])
           [VNum 0; VStr "pi/2"]).
  reflexivity.
Defined.

(** X17.  Selecting the same example twice is the same as selecting it
    once: the second click ends the way the first did and leaves every
    cell of the form as the first click left it. *)
Theorem example_selection_idempotent (ToString : value -> string) (ex : value)
    (s : App.state) :
  let once := handleExampleSelect ToString ex s in
  let twice := handleExampleSelect ToString ex (snd once) in
  fst twice = fst once /\ forall c, snd twice c = snd once c.
Proof.
  cbv zeta. unfold handleExampleSelect.
  destruct (get ex "type") as [type | e].
  2: { cbn [snd fst]. split; reflexivity. }
  cbv zeta. unfold and_then, when_set_strings.
  destruct (truthy (member ex "u_range"));
    [ destruct (map_String ToString "ex.u_range" (member ex "u_range")) | ];
    cbn [snd fst];
    (destruct (truthy (member ex "v_range"));
     [ destruct (map_String ToString "ex.v_range" (member ex "v_range")) | ]);
    cbn [snd fst];
    (split; [ reflexivity | ]);
    intros c;
    (destruct c;
     [ read_cell;
       destruct (truthy type);
       destruct (truthy (member_at ToString typeMap type));
       destruct (is_str (s App.integralType) "physics") eqn:P;
       cbn [andb]; rewrite ?P; cbn [andb]; try reflexivity;
       match goal with
       | |- context [if ?b then _ else _] => destruct b
       end; reflexivity
     | read_cell;
       repeat match goal with
              | |- context [if ?b then _ else _] => destruct b
              end;
       reflexivity .. ]).
Qed.

(** *** The vector-operation panel *)

(** X18.  When the response of a computation carries a truthy [result]
    that is not a function (no decoded or demo response holds one) and
    that has no truthy [result] of its own (as the responses of the three
    vector operations do), the hook keeps only the inner result, and the
    vector-operation panel, which looks for [result.result], renders
    nothing although the computation succeeded. *)
Theorem vector_panel_hidden (ToString : value -> string) (isDemo : bool)
    (transport : string -> value -> outcome value)
    (call_native : string -> value -> outcome value) (s : App.state)
    (data : value) (h0 : hook_state) :
  computation ToString isDemo transport (s App.integralType)
    (App.form_state s) = Returned data ->
  truthy (member data "result") = true ->
  is_function (member data "result") = false ->
  truthy (opt_member (member data "result") "result") = false ->
  let h := snd (handleCompute ToString isDemo transport call_native s h0) in
  error h = VNull
  /\ result h = member data "result"
  /\ shows_vector_panel s h = false.
Proof.
  intros Hc Hr Hf Hrr. cbv zeta. unfold handleCompute.
  assert (next_state call_native (js_or (member data "result") data) VNull
          = member data "result") as S.
  { unfold js_or. rewrite Hr. apply next_state_stores. exact Hf. }
  rewrite compute_run, Hc.
  unfold shows_vector_panel, VectorOperationResult_renders.
  cbn [snd error result loading]. rewrite !S, Hrr.
  repeat split. apply Bool.andb_false_r.
Qed.

(** X18 at the gradient, the divergence and the curl of the demo. *)
Lemma vector_panel_hidden_witness :
  Forall (fun op =>
            let s := App.set App.vectorOp (VStr op)
                       (App.set App.integralType (VStr "vector_operations")
                          App.initial) in
            let h := snd (handleCompute ToString_basic true failing_transport
                            call_native_on_null s initial_state) in
            error h = VNull
            /\ result h = member (member DEMO_VECTOR_OPS op) "result"
            /\ shows_vector_panel s h = false)
         vector_operations.
Proof.
  unfold vector_operations.
  apply Forall_cons;
    [ | apply Forall_cons; [ | apply Forall_cons; [ | apply Forall_nil ] ] ];
    cbv zeta;
    apply (vector_panel_hidden ToString_basic true failing_transport
             call_native_on_null);
    reflexivity.
Defined.

(** *** Editing a field *)

Lemma own_none (props : list (string * value)) (k : string) :
  existsb (fun p => fst p =? k) props = false -> own props k = None.
Proof.
  induction props as [ | [k' x] rest IH]; [ reflexivity | ].
  cbn [existsb fst own]. intros H.
  apply Bool.orb_false_iff in H. destruct H as [H1 H2].
  rewrite (IH H2), H1. reflexivity.
Qed.

Lemma own_replace_same (props : list (string * value)) (k : string)
    (v : value) :
  existsb (fun p => fst p =? k) props = true ->
  own (map (fun p => if fst p =? k then (fst p, v) else p) props) k = Some v.
Proof.
  induction props as [ | [k' x] rest IH]; [ discriminate | ].
  cbn [existsb fst map own]. intros H.
  destruct (existsb (fun p => fst p =? k) rest) eqn:R.
  - rewrite (IH eq_refl). destruct (k' =? k); reflexivity.
  - rewrite Bool.orb_false_r in H. rewrite H. cbn [fst].
    assert (own (map (fun p => if fst p =? k then (fst p, v) else p) rest) k
            = None) as ->.
    { apply own_none. clear IH H.
      induction rest as [ | [k2 x2] rest IH]; [ reflexivity | ].
      cbn [existsb fst map] in *.
      apply Bool.orb_false_iff in R. destruct R as [R1 R2].
      rewrite R1. cbn [fst]. rewrite R1, (IH R2). reflexivity. }
    rewrite H. reflexivity.
Qed.

Lemma own_replace_other (props : list (string * value)) (k k' : string)
    (v : value) :
  k' <> k ->
  own (map (fun p => if fst p =? k then (fst p, v) else p) props) k'
  = own props k'.
Proof.
  intros N.
  induction props as [ | [k2 x] rest IH]; [ reflexivity | ].
  cbn [map fst].
  destruct (String.eqb_spec k2 k) as [-> | N2]; cbn [own]; rewrite IH;
    [ | reflexivity ].
  destruct (own rest k'); [ reflexivity | ].
  destruct (String.eqb_spec k k'); [ congruence | reflexivity ].
Qed.

Lemma own_append (props : list (string * value)) (k k' : string) (v : value) :
  own (props ++ [(k, v)]) k'
  = if k =? k' then Some v else own props k'.
Proof.
  induction props as [ | [k2 x] rest IH].
  - cbn [app own]. reflexivity.
  - cbn [app own]. rewrite IH.
    destruct (k =? k'); [ reflexivity | ].
    reflexivity.
Qed.

Lemma member_spread_same (props : list (string * value)) (k : string)
    (v : value) :
  member (spread_with (VObj props) k v) k = v.
Proof.
  unfold spread_with, assign. cbn [member].
  destruct (existsb (fun p => fst p =? k) props) eqn:E.
  - rewrite (own_replace_same _ _ _ E). reflexivity.
  - rewrite own_append, String.eqb_refl. reflexivity.
Qed.

Lemma member_spread_other (props : list (string * value)) (k k' : string)
    (v : value) :
  k' <> k ->
  member (spread_with (VObj props) k v) k' = member (VObj props) k'.
Proof.
  intros N. unfold spread_with, assign. cbn [member].
  destruct (existsb (fun p => fst p =? k) props) eqn:E.
  - rewrite (own_replace_other _ _ _ _ N). reflexivity.
  - rewrite own_append.
    destruct (String.eqb_spec k k'); [ congruence | reflexivity ].
Qed.

(** X19.  Editing one field of a region keeps all its other fields, so
    a region whose type is changed is requested with the fields of its
    former type still in it: after the type of the two-dimensional region
    is set, the double-integral request carries the new type and every
    other field of the region as it was. *)
Theorem region_type_change_keeps_fields (ToString : value -> string)
    (s : App.state) (props : list (string * value)) (type : value)
    (k : string) :
  s App.region2D = VObj props ->
  k <> "type" ->
  let s' := edit_field App.region2D "type" type s in
  exists body,
    getComputeConfig ToString (VStr "2d") (App.form_state s')
    = Returned ("/integrate/2d", body)
    /\ member body "integrand" = s App.integrand
    /\ member (member body "region") "type" = type
    /\ member (member body "region") k = member (s App.region2D) k.
Proof.
  intros Hr Hk. cbv zeta.
  unfold getComputeConfig, App.form_state.
  cbn [get member own String.eqb Ascii.eqb Bool.eqb bind is_str].
  eexists. split; [ reflexivity | ].
  cbn [member own String.eqb Ascii.eqb Bool.eqb].
  unfold edit_field. rewrite !set_at. cbn [App.cell_eqb App.index Nat.eqb].
  rewrite Hr. repeat split.
  - apply member_spread_same.
  - apply member_spread_other. exact Hk.
Qed.

(** X19 at the initial form, whose rectangle is turned into a disk. *)
Lemma region_type_change_keeps_fields_witness :
  let s' := edit_field App.region2D "type" (VStr "disk") App.initial in
  exists body,
    getComputeConfig ToString_basic (VStr "2d") (App.form_state s')
    = Returned ("/integrate/2d", body)
    /\ member body "integrand" = App.initial App.integrand
    /\ member (member body "region") "type" = VStr "disk"
    /\ member (member body "region") "x_max"
       = member (App.initial App.region2D) "x_max".
Proof.
  apply (region_type_change_keeps_fields ToString_basic App.initial
           [("type", VStr "rectangle"); ("x_min", VStr "0");
            ("x_max", VStr "1"); ("y_min", VStr "0"); ("y_max", VStr "1")]).
  - reflexivity.
  - discriminate.
Defined.

(** *** The surface mesh *)

Lemma flat_map_constant_length {A B : Type} (f : A -> list B) (n : nat)
    (items : list A) :
  (forall x, length (f x) = n) ->
  length (flat_map f items) = (n * length items)%nat.
Proof.
  intros H. induction items as [ | x rest IH]; cbn [flat_map length].
  - lia.
  - rewrite length_app, H, IH. lia.
Qed.

(** X20.  The triangles of the surface mesh only name vertices of the
    grid: every index is below the number of vertices, and there are six
    indices (two triangles) per grid square. *)
Theorem surface_indices_in_bounds (rows cols : nat) :
  Forall (fun k => (k < surface_vertices rows cols)%nat)
         (surface_indices rows cols)
  /\ length (surface_indices rows cols)
     = (6 * ((rows - 1) * (cols - 1)))%nat.
Proof.
  split.
  - apply Forall_forall. intros k Hk.
    unfold surface_indices in Hk.
    apply in_flat_map in Hk. destruct Hk as [i [Hi Hk]].
    apply in_flat_map in Hk. destruct Hk as [j [Hj Hk]].
    apply in_seq in Hi. apply in_seq in Hj.
    unfold surface_vertices.
    assert (((i + 2) * cols <= rows * cols)%nat) as Hrow
        by (apply Nat.mul_le_mono_r; lia).
    cbv zeta in Hk. simpl in Hk.
    destruct Hk as [<- | [<- | [<- | [<- | [<- | [<- | []]]]]]]; nia.
  - unfold surface_indices.
    rewrite (flat_map_constant_length _ (6 * (cols - 1))%nat).
    + rewrite length_seq. lia.
    + intros i. rewrite (flat_map_constant_length _ 6%nat).
      * rewrite length_seq. lia.
      * intros j. reflexivity.
Qed.

(** *** The examples panel *)

Lemma Set_of_from (seen items : list value) (x : value) :
  In x (fold_left (fun seen v =>
                     if existsb (same_value_zero v) seen then seen
                     else seen ++ [v]) items seen) ->
  In x seen \/ In x items.
Proof.
  revert seen. induction items as [ | v rest IH]; intros seen H.
  - left. exact H.
  - cbn [fold_left] in H. apply IH in H. destruct H as [H | H].
    + destruct (existsb (same_value_zero v) seen).
      * left. exact H.
      * apply in_app_or in H. destruct H as [H | [<- | []]].
        -- left. exact H.
        -- right. left. reflexivity.
    + right. right. exact H.
Qed.

Lemma Set_of_incl (items : list value) (x : value) :
  In x (Set_of items) -> In x items.
Proof.
  intros H. apply Set_of_from in H. destruct H as [[] | H]. exact H.
Qed.

Lemma traverse_get_in (k : string) (items found : list value) (x : value) :
  traverse (fun e => get e k) items = Returned found ->
  In x found -> exists e, In e items /\ member e k = x.
Proof.
  revert found. induction items as [ | e rest IH]; intros found H Hx.
  - injection H as <-. destruct Hx.
  - cbn [traverse] in H.
    destruct (nullish e) eqn:N.
    + destruct (get_nullish e k N) as [err E]. rewrite E in H. discriminate.
    + rewrite (get_member e k N) in H. cbn [bind] in H.
      destruct (traverse (fun e => get e k) rest) as [ys | err];
        [ | discriminate ].
      cbn [bind] in H. injection H as <-.
      destruct Hx as [<- | Hx].
      * exists e. split; [ left; reflexivity | reflexivity ].
      * destruct (IH ys eq_refl Hx) as [e' [Hin He]].
        exists e'. split; [ right; exact Hin | exact He ].
Qed.

Lemma is_str_true (v : value) (s : string) :
  is_str v s = true -> v = VStr s.
Proof.
  destruct v; try discriminate. cbn [is_str]. intros H.
  apply String.eqb_eq in H. subst. reflexivity.
Qed.

(** X21.  In the physics view of the examples panel, every category
    offered in the drop-down besides ['all'] lists at least one example,
    all the examples it lists are of that category, and ['all'] lists the
    whole physics section of the catalogue. *)
Theorem category_lists_its_examples (examples : value) (chosen : string)
    (categories shown : list value) :
  physics_panel examples chosen = Returned (categories, shown) ->
  (forall c, In (VStr c) categories -> c <> "all" ->
     exists listed,
       physics_panel examples c = Returned (categories, listed)
       /\ listed <> []
       /\ Forall (fun e => member e "category" = VStr c) listed)
  /\ exists listed,
      physics_panel examples "all" = Returned (categories, listed)
      /\ js_or (member examples "physics") (VArr []) = VArr listed.
Proof.
  unfold physics_panel.
  destruct (js_or (member examples "physics") (VArr [])) as
    [ | | | | | | | items | | | ]; cbn [array_items bind]; try discriminate.
  destruct (traverse (fun e => get e "category") items) as [found | err] eqn:T;
    cbn [bind]; [ | discriminate ].
  cbv zeta.
  destruct (traverse category_label (VStr "all" :: Set_of found))
    as [labels | err] eqn:L; cbn [bind]; [ | discriminate ].
  intros H. injection H as <- _.
  split.
  - intros c Hc Hne.
    destruct (String.eqb_spec c "all") as [-> | _]; [ contradiction | ].
    eexists. split; [ reflexivity | ].
    destruct Hc as [Hc | Hc]; [ congruence | ].
    apply Set_of_incl in Hc.
    destruct (traverse_get_in _ _ _ _ T Hc) as [e [Hin He]].
    split.
    + intros Hnil.
      assert (In e (filter (fun e => is_str (member e "category") c) items))
        as Hf.
      { apply filter_In. split; [ exact Hin | ].
        rewrite He. cbn [is_str]. apply String.eqb_refl. }
      rewrite Hnil in Hf. destruct Hf.
    + apply Forall_forall. intros e' He'.
      apply filter_In in He'. destruct He' as [_ He'].
      apply is_str_true. exact He'.
  - eexists. split; reflexivity.
Qed.

(** X21 at the physics section of the demo catalogue. *)
Lemma category_lists_its_examples_witness :
  exists listed,
    physics_panel DEMO_EXAMPLES "mechanics"
    = Returned ([VStr "all"; VStr "electromagnetism"; VStr "mechanics"],
                listed)
    /\ listed <> []
    /\ Forall (fun e => member e "category" = VStr "mechanics") listed.
Proof.
  apply (proj1 (category_lists_its_examples DEMO_EXAMPLES "all"
                  [VStr "all"; VStr "electromagnetism"; VStr "mechanics"]
                  (match member DEMO_EXAMPLES "physics" with
                   | VArr items => items
                   | _ => []
                   end) eq_refl)).
  - right; right; left; reflexivity.
  - discriminate.
Defined.
